(** * journal-backend: the request pipeline of the Express server

    The repository holds three revisions of one server file:
    - [src/index.cjs]          (module [Index]):   /car, /register, /login, gate;
    - [src/unnamed/part_000]   (module [Entries]): /register, /login, gate,
                                                   /entry_table, /user_table;
    - [src/unnamed/part_001]   (module [Draft]):   /car, /register, /log-in and
                                                   an earlier gate.

    The embedding is shallow.  An [async] handler is a computation in a
    state-and-exception monad [M] over a [World] that holds the request
    object (shared and mutated by the middleware chain), the response, the
    connection pool, the store behind the pool and a ghost trace of the
    calls made.  The libraries the server calls (bcrypt, jsonwebtoken,
    the SQL engine) are the fields of an environment [Env]; the theorems
    quantify over it.  Console output is not modelled.

    A middleware is a function of [next], the computation that its call
    [next()] performs before it returns.  Express's [next()] returns when
    the synchronous part of the rest of the chain has run: an [async]
    handler goes on by itself after its first [await], and what it throws
    there rejects its own promise and does not reach the middleware.  The
    theorems about the lease and the gate are therefore stated for every
    [next].  [dispatch] composes the layers of a file with every handler
    run to its end at the point where it is entered: it tells which
    layers a request enters and what its handlers do, and it gives the
    order of the events on the paths that are synchronous. *)

From Stdlib Require Import Ascii.
From stdpp Require Import base strings pretty gmap list.
Set Warnings "-register-all".
Open Scope string_scope.
Open Scope list_scope.
Open Scope Z_scope.

(** ** JavaScript values *)

Inductive JsVal :=
| VUndef
| VNull
| VBool (b : bool)
| VNum (n : Z)
| VStr (s : string)
| VArr (xs : list JsVal)
| VObj (fs : gmap string JsVal).

(** What [throw] carries: an [Error] object with its [name] and [message],
    or any other value. *)
Inductive Thrown :=
| JsError (name message : string)
| JsThrow (v : JsVal).

Definition TypeError (msg : string) : Thrown := JsError "TypeError" msg.

(** [!v] is [negb (truthy v)]. *)
Definition truthy (v : JsVal) : bool :=
  match v with
  | VUndef | VNull => false
  | VBool b => b
  | VNum n => negb (n =? 0)
  | VStr s => negb (String.eqb s "")
  | VArr _ | VObj _ => true
  end.

(** [v.k] on a value that is neither [undefined] nor [null]. *)
Definition prop (v : JsVal) (k : string) : JsVal :=
  match v with
  | VObj fs => default VUndef (fs !! k)
  | _ => VUndef
  end.

Definition nullish (v : JsVal) : bool :=
  match v with VUndef | VNull => true | _ => false end.

(** [{ ...v }]: the own enumerable properties of an object. *)
Definition own_props (v : JsVal) : gmap string JsVal :=
  match v with
  | VObj fs => fs
  | _ => ∅
  end.

(** [{ k: x, ...v }]: later keys override earlier ones. *)
Definition spread_over (k : string) (x : JsVal) (v : JsVal) : JsVal :=
  VObj (own_props v ∪ {[ k := x ]}).

(** ** Strings *)

(** [s.split(c)] for a one-character separator. *)
Fixpoint split_on (c : ascii) (s : string) : list string :=
  match s with
  | EmptyString => [EmptyString]
  | String a s' =>
      if Ascii.eqb a c then EmptyString :: split_on c s'
      else match split_on c s' with
           | [] => [String a EmptyString]
           | x :: xs => String a x :: xs
           end
  end.

Definition space : ascii := Ascii.ascii_of_nat 32.

Definition is_lower (a : ascii) : bool :=
  (97 <=? Ascii.nat_of_ascii a)%nat && (Ascii.nat_of_ascii a <=? 122)%nat.
Definition is_upper (a : ascii) : bool :=
  (65 <=? Ascii.nat_of_ascii a)%nat && (Ascii.nat_of_ascii a <=? 90)%nat.
Definition is_digit (a : ascii) : bool :=
  (48 <=? Ascii.nat_of_ascii a)%nat && (Ascii.nat_of_ascii a <=? 57)%nat.
Definition is_alpha (a : ascii) : bool := is_lower a || is_upper a.
Definition is_word (a : ascii) : bool :=
  is_alpha a || is_digit a || Ascii.eqb a (Ascii.ascii_of_nat 95).

Definition upper_ascii (a : ascii) : ascii :=
  if is_lower a then Ascii.ascii_of_nat (Ascii.nat_of_ascii a - 32) else a.

(** [s.toUpperCase()] on ASCII text. *)
Fixpoint toUpperCase (s : string) : string :=
  match s with
  | EmptyString => EmptyString
  | String a s' => String (upper_ascii a) (toUpperCase s')
  end.

(** ** Named placeholders

    The connection is configured with [namedPlaceholders = true]: the driver
    scans the statement for [:name] tokens outside quoted text and sends, for
    each token in order, the property of that name of the parameter object.
    A missing property is [undefined], which the driver writes as NULL. *)

Inductive Scan :=
| Outside
| Quoted (q : ascii)
| Colon
| Name (acc : string).

Definition is_quote (a : ascii) : bool :=
  Ascii.eqb a (Ascii.ascii_of_nat 39) || Ascii.eqb a (Ascii.ascii_of_nat 34).

Definition colon : ascii := Ascii.ascii_of_nat 58.

Definition scan_outside (a : ascii) : Scan :=
  if is_quote a then Quoted a
  else if Ascii.eqb a colon then Colon
  else Outside.

Fixpoint placeholders_from (st : Scan) (s : string) : list string :=
  match s with
  | EmptyString =>
      match st with
      | Name acc => [acc]
      | _ => []
      end
  | String a s' =>
      match st with
      | Outside => placeholders_from (scan_outside a) s'
      | Quoted q =>
          placeholders_from (if Ascii.eqb a q then Outside else Quoted q) s'
      | Colon =>
          if is_alpha a then placeholders_from (Name (String a EmptyString)) s'
          else placeholders_from (scan_outside a) s'
      | Name acc =>
          if is_word a then placeholders_from (Name (acc +:+ String a EmptyString)) s'
          else acc :: placeholders_from (scan_outside a) s'
      end
  end.

Definition placeholders (sql : string) : list string :=
  placeholders_from Outside sql.

(** The values sent with a statement: none without a parameter object. *)
Definition bind_named (sql : string) (values : option (gmap string JsVal))
  : Thrown + list JsVal :=
  match placeholders sql, values with
  | [], _ => inr []
  | _ :: _, None =>
      inl (JsError "Error"
             "Named query contains placeholders, but parameters object is undefined")
  | names, Some ps => inr ((fun n => default VUndef (ps !! n)) <$> names)
  end.

(** ** Requests, responses and the world a handler runs in *)

Inductive Method := GET | POST | PUT | DELETE.

Definition Conn := nat.

(** The request object.  [db] and [user] are the properties the middleware
    adds ([req.db], [req.user]); [reqStatus] is [req.status], which only the
    earlier gate assigns. *)
Record Req := mkReq {
  method : Method;
  path : list string;
  authorization : option string;
  body : JsVal;
  params : gmap string JsVal;
  db : option Conn;
  user : JsVal;
  reqStatus : JsVal
}.

(** A request as it arrives, after [bodyParser.json()]. *)
Definition incoming (m : Method) (p : list string) (auth : option string)
    (b : JsVal) : Req :=
  mkReq m p auth b ∅ None VUndef VUndef.

Record Response := mkResponse { status : Z; payload : JsVal }.

(** The ghost trace: what the request did, oldest first. *)
Inductive Event :=
| EvAcquire (c : Conn)
| EvRelease (c : Conn)
| EvQuery (sql : string) (vals : list JsVal)
| EvEnter (layer : string)
| EvSign (claims : JsVal)
| EvVerify (token : JsVal)
| EvEmit (name : string).

Record World (S : Type) := mkWorld {
  req : Req;
  statusCode : Z;
  sent : option Response;
  idle : list Conn;
  leased : list Conn;
  store : S;
  trace : list Event
}.
Arguments mkWorld {S}.
Arguments req {S}.
Arguments statusCode {S}.
Arguments sent {S}.
Arguments idle {S}.
Arguments leased {S}.
Arguments store {S}.
Arguments trace {S}.

(** The world in which a request starts: nothing sent, default status 200. *)
Definition arrive {S} (r : Req) (free busy : list Conn) (s : S) : World S :=
  mkWorld r 200 None free busy s [].

(** The libraries behind the server.  [db_exec] is the SQL engine: it gets
    the statement text and the values bound to it and answers with the first
    element of the driver's result pair (the rows, or the result header with
    [insertId]).  The signing key [process.env.JWT_KEY] is part of
    [jwt_sign] and [jwt_verify]. *)
Record Env (S : Type) := mkEnv {
  db_exec : S -> string -> list JsVal -> (Thrown + JsVal) * S;
  bcrypt_hash : JsVal -> Z -> Thrown + string;
  bcrypt_compare : JsVal -> JsVal -> Thrown + bool;
  jwt_sign : JsVal -> Thrown + string;
  jwt_verify : JsVal -> Thrown + JsVal
}.
Arguments db_exec {S}.
Arguments bcrypt_hash {S}.
Arguments bcrypt_compare {S}.
Arguments jwt_sign {S}.
Arguments jwt_verify {S}.

(** ** The monad of handlers *)

Inductive Res (A : Type) :=
| Ret (a : A)
| Thr (e : Thrown).
Arguments Ret {A}.
Arguments Thr {A}.

Definition M (S A : Type) : Type := World S -> Res A * World S.

Definition ret {S A} (a : A) : M S A := fun w => (Ret a, w).

Definition throw {S A} (e : Thrown) : M S A := fun w => (Thr e, w).

Definition bind {S A B} (m : M S A) (k : A -> M S B) : M S B :=
  fun w =>
    match m w with
    | (Ret a, w') => k a w'
    | (Thr e, w') => (Thr e, w')
    end.

(** [try { m } catch (err) { h err }] *)
Definition try_catch {S A} (m : M S A) (h : Thrown -> M S A) : M S A :=
  fun w =>
    match m w with
    | (Ret a, w') => (Ret a, w')
    | (Thr e, w') => h e w'
    end.

Notation "x <- m ;; k" := (bind m (fun x => k))
  (at level 20, m at level 99, k at level 200, only parsing).
Notation "m ;;; k" := (bind m (fun _ => k))
  (at level 100, k at level 200, only parsing, right associativity).

Section Runtime.
Context {S : Type}.

Definition get_req : M S Req := fun w => (Ret (req w), w).

Definition set_req (r : Req) : M S unit := fun w =>
  (Ret tt, mkWorld r (statusCode w) (sent w) (idle w) (leased w) (store w) (trace w)).

Definition emit (e : Event) : M S unit := fun w =>
  (Ret tt, mkWorld (req w) (statusCode w) (sent w) (idle w) (leased w) (store w)
             (trace w ++ [e])).

Definition set_db (c : option Conn) : M S unit :=
  r <- get_req ;;
  set_req (mkReq (method r) (path r) (authorization r) (body r) (params r)
             c (user r) (reqStatus r)).

Definition set_user (u : JsVal) : M S unit :=
  r <- get_req ;;
  set_req (mkReq (method r) (path r) (authorization r) (body r) (params r)
             (db r) u (reqStatus r)).

Definition set_params (ps : gmap string JsVal) : M S unit :=
  r <- get_req ;;
  set_req (mkReq (method r) (path r) (authorization r) (body r) ps
             (db r) (user r) (reqStatus r)).

Definition set_body (b : JsVal) : M S unit :=
  r <- get_req ;;
  set_req (mkReq (method r) (path r) (authorization r) b (params r)
             (db r) (user r) (reqStatus r)).

Definition set_reqStatus (v : JsVal) : M S unit :=
  r <- get_req ;;
  set_req (mkReq (method r) (path r) (authorization r) (body r) (params r)
             (db r) (user r) v).

(** [res.status(n)] *)
Definition res_status (n : Z) : M S unit := fun w =>
  (Ret tt, mkWorld (req w) n (sent w) (idle w) (leased w) (store w) (trace w)).

(** [res.json(v)]: sends with the current status; a second send throws. *)
Definition res_json (v : JsVal) : M S unit := fun w =>
  match sent w with
  | Some _ =>
      (Thr (JsError "Error" "Cannot set headers after they are sent to the client"), w)
  | None =>
      (Ret tt, mkWorld (req w) (statusCode w) (Some (mkResponse (statusCode w) v))
                 (idle w) (leased w) (store w) (trace w))
  end.

(** [pool.getConnection()]: the pool hands over a free connection.  The
    pool of these files is created with the defaults of mysql2, under
    which a call that finds no free connection waits for one; the branch
    for an empty free list stands for a call that is rejected instead,
    with the error of a pool that does not queue. *)
Definition pool_getConnection : M S Conn := fun w =>
  match idle w with
  | c :: rest =>
      (Ret c, mkWorld (req w) (statusCode w) (sent w) rest (c :: leased w) (store w)
                (trace w ++ [EvAcquire c]))
  | [] => (Thr (JsError "Error" "No connections available."), w)
  end.

(** [conn.release()]: back to the free list. *)
Definition release (c : Conn) : M S unit := fun w =>
  (Ret tt, mkWorld (req w) (statusCode w) (sent w) (c :: idle w)
             (filter (fun x => x ≠ c) (leased w)) (store w)
             (trace w ++ [EvRelease c])).

(** [req.db.release()] *)
Definition req_db_release : M S unit :=
  r <- get_req ;;
  match db r with
  | Some c => release c
  | None => throw (TypeError "Cannot read properties of undefined (reading 'release')")
  end.

(** [const { k } = v] and [v.k]: reading a property throws on
    [undefined] and [null]. *)
Definition get_prop (v : JsVal) (k : string) : M S JsVal :=
  if nullish v then throw (TypeError "Cannot read properties of undefined")
  else ret (prop v k).

(** [const [x] = v]: the first element of an iterable. *)
Definition first_of (v : JsVal) : M S JsVal :=
  match v with
  | VArr [] => ret VUndef
  | VArr (x :: _) => ret x
  | VStr EmptyString => ret VUndef
  | VStr (String a _) => ret (VStr (String a EmptyString))
  | _ => throw (TypeError "object is not iterable")
  end.

Section WithEnv.
Variable E : Env S.

(** [await req.db.query(sql, values)], destructured to its first
    element. *)
Definition db_query (sql : string) (values : option (gmap string JsVal))
  : M S JsVal :=
  r <- get_req ;;
  match db r with
  | None => throw (TypeError "Cannot read properties of undefined (reading 'query')")
  | Some _ =>
      match bind_named sql values with
      | inl e => throw e
      | inr vals =>
          emit (EvQuery sql vals) ;;;
          fun w =>
            match db_exec E (store w) sql vals with
            | (inl e, s') =>
                (Thr e, mkWorld (req w) (statusCode w) (sent w) (idle w) (leased w)
                          s' (trace w))
            | (inr v, s') =>
                (Ret v, mkWorld (req w) (statusCode w) (sent w) (idle w) (leased w)
                          s' (trace w))
            end
      end
  end.

Definition lift {A} (r : Thrown + A) : M S A :=
  match r with
  | inl e => throw e
  | inr a => ret a
  end.

(** [await bcrypt.hash(data, rounds)] *)
Definition hash (data : JsVal) (rounds : Z) : M S string :=
  lift (bcrypt_hash E data rounds).

(** [await bcrypt.compare(data, digest)] *)
Definition compare (data digest : JsVal) : M S bool :=
  lift (bcrypt_compare E data digest).

(** [jwt.sign(claims, process.env.JWT_KEY)] *)
Definition sign (claims : JsVal) : M S string :=
  emit (EvSign claims) ;;; lift (jwt_sign E claims).

(** [jwt.verify(token, process.env.JWT_KEY)] *)
Definition verify (token : JsVal) : M S JsVal :=
  emit (EvVerify token) ;;; lift (jwt_verify E token).
End WithEnv.
End Runtime.

(** ** The router

    Express keeps the layers in registration order.  A middleware
    ([app.use]) sees every request and gets the rest of the chain as [next];
    a route runs when method and path match, and none of the routes here
    calls [next].  A request that falls off the end gets Express's 404.

    [dispatch] runs a handler to its end where it is entered, so that in
    it [await next()] waits for the whole rest of the chain and receives
    what that throws.  Express itself returns from [next()] as soon as
    the handler entered has reached its first [await]; on the paths where
    a handler awaits, the events after that point come later than
    [dispatch] places them, and an error thrown there is not seen by the
    middleware above.

    A path is given by its segments, compared as the route table writes
    them.  Express also ignores the case of a literal segment, accepts
    one trailing slash and percent-decodes a parameter: a request is
    taken here in that normal form. *)

Inductive PSeg :=
| Lit (s : string)
| Par (name : string).

Fixpoint match_path (pat : list PSeg) (p : list string)
  : option (gmap string JsVal) :=
  match pat, p with
  | [], [] => Some ∅
  | Lit s :: pat', x :: p' => if String.eqb s x then match_path pat' p' else None
  | Par n :: pat', x :: p' =>
      if String.eqb x "" then None
      else (fun ps => <[ n := VStr x ]> ps) <$> match_path pat' p'
  | _, _ => None
  end.

Definition same_method (a b : Method) : bool :=
  match a, b with
  | GET, GET | POST, POST | PUT, PUT | DELETE, DELETE => true
  | _, _ => false
  end.

Inductive Layer (S : Type) :=
| Use (label : string) (mw : M S unit -> M S unit)
| Route (label : string) (m : Method) (pat : list PSeg) (h : M S unit).
Arguments Use {S}.
Arguments Route {S}.

Definition layer_label {S} (l : Layer S) : string :=
  match l with
  | Use label _ => label
  | Route label _ _ _ => label
  end.

Definition route_matches (m : Method) (pat : list PSeg) (r : Req)
  : option (gmap string JsVal) :=
  if same_method m (method r) then match_path pat (path r) else None.

(** Express's answer to a request that no layer answered: status 404.
    The body Express sends is an HTML page ('Cannot GET /path'); the
    payload here is a fixed text in its place. *)
Definition final_handler {S} : M S unit := fun w =>
  match sent w with
  | Some _ => (Ret tt, w)
  | None => (res_status 404 ;;; res_json (VStr "Not Found")) w
  end.

Fixpoint dispatch {S} (layers : list (Layer S)) : M S unit :=
  match layers with
  | [] => final_handler
  | Use label mw :: rest =>
      emit (EvEnter label) ;;; mw (dispatch rest)
  | Route label m pat h :: rest =>
      r <- get_req ;;
      match route_matches m pat r with
      | Some ps => emit (EvEnter label) ;;; set_params ps ;;; h
      | None => dispatch rest
      end
  end.

(** ** More of JavaScript *)

Definition obj (l : list (string * JsVal)) : gmap string JsVal := list_to_map l.

Definition dquote : string := String (Ascii.ascii_of_nat 34) EmptyString.

Definition js_or (a b : JsVal) : JsVal := if truthy a then a else b.

(** [String(v)], as the template literal [`${v}`] applies it. *)
Fixpoint to_js_string (v : JsVal) : string :=
  match v with
  | VUndef => "undefined"
  | VNull => "null"
  | VBool true => "true"
  | VBool false => "false"
  | VNum n => pretty n
  | VStr s => s
  | VArr xs =>
      (fix join (l : list JsVal) : string :=
         match l with
         | [] => ""
         | [x] => if nullish x then "" else to_js_string x
         | x :: rest =>
             (if nullish x then "" else to_js_string x) +:+ "," +:+ join rest
         end) xs
  | VObj _ => "[object Object]"
  end.

(** ** Handlers that the revisions share *)

Section Handlers.
Context {S : Type}.
Variable E : Env S.

Definition sql_mode : string :=
  "SET SESSION sql_mode = " +:+ dquote +:+ "TRADITIONAL" +:+ dquote.

Definition sql_time_zone : string := "SET time_zone = '-8:00'".

(** The connection lease, [app.use(async (req, res, next) => ...)], the
    same text in the three files (lines 33-55).  The assignment
    [namedPlaceholders = true] is what makes [db_query] bind by name. *)
Definition lease (next : M S unit) : M S unit :=
  try_catch
    (c <- pool_getConnection ;;
     set_db (Some c) ;;;
     _ <- db_query E sql_mode None ;;
     _ <- db_query E sql_time_zone None ;;
     next ;;;
     req_db_release)
    (fun err =>
       r <- get_req ;;
       (match db r with
        | Some c => release c
        | None => ret tt
        end) ;;;
       throw err).

(** [app.delete('/car/:id')], index.cjs and part_001 lines 57-59. *)
Definition car_delete : M S unit :=
  res_json (VObj (obj [("success", VBool true)])).

(** [app.get('/car')], lines 62-67. *)
Definition car_get : M S unit :=
  cars <- db_query E "SELECT * FROM car;" None ;;
  res_json (VObj (obj [("cars", cars)])).

Definition sql_insert_car : string := "
    INSERT INTO car (make_id, model, date_created, user_id, deleted_flag)
    VALUES (:makeId, :model, NOW(), :user_id, :deleted_flag);
  ".

(** The parameter object of the insert, [{ make_id, model, user_id,
    deleted_flag }]. *)
Definition car_params (make_id model user_id deleted_flag : JsVal)
  : gmap string JsVal :=
  obj [("make_id", make_id); ("model", model); ("user_id", user_id);
       ("deleted_flag", deleted_flag)].

(** [app.post('/car')], lines 69-95. *)
Definition car_post : M S unit :=
  r <- get_req ;;
  make_id <- get_prop (body r) "make_id" ;;
  model <- get_prop (body r) "model" ;;
  user_id <- get_prop (body r) "user_id" ;;
  deleted_flag <- get_prop (body r) "deleted_flag" ;;
  insert <- db_query E sql_insert_car
              (Some (car_params make_id model user_id deleted_flag)) ;;
  id <- get_prop insert "insertId" ;;
  res_json (VObj (obj [("id", id); ("make_id", make_id); ("model", model);
                       ("user_id", user_id); ("deleted_flag", deleted_flag)])).

Definition sql_insert_user : string :=
  "INSERT INTO user_table (email, password, username)
      VALUES (:email, :hashedPassword, :username);".

(** [app.post('/register')], index.cjs lines 98-119 and part_000
    lines 58-80. *)
Definition register : M S unit :=
  try_catch
    (r <- get_req ;;
     email <- get_prop (body r) "email" ;;
     password <- get_prop (body r) "password" ;;
     username <- get_prop (body r) "username" ;;
     hashedPassword <- hash E password 10 ;;
     user <- db_query E sql_insert_user
               (Some (obj [("email", email);
                           ("hashedPassword", VStr hashedPassword);
                           ("username", username)])) ;;
     insertId <- get_prop user "insertId" ;;
     jwtEncodedUser <- sign E (spread_over "UserID" insertId (body r)) ;;
     res_json (VObj (obj [("jwt", VStr jwtEncodedUser); ("success", VBool true)])))
    (fun error =>
       res_json (VObj (obj [("error", VStr "An error occurred during registration")]))).

Definition sql_select_user : string :=
  "SELECT * FROM user_table WHERE Username = :username".

(** [app.post('/login')], index.cjs lines 121-151 and part_000
    lines 82-122. *)
Definition login : M S unit :=
  try_catch
    (r <- get_req ;;
     username <- get_prop (body r) "username" ;;
     userEnteredPassword <- get_prop (body r) "password" ;;
     rows <- db_query E sql_select_user (Some (obj [("username", username)])) ;;
     user <- first_of rows ;;
     if negb (truthy user) then
       res_status 404 ;;;
       res_json (VObj (obj [("error", VStr "Username not found")]))
     else
       stored <- get_prop user "Password" ;;
       let hashedPassword := VStr (to_js_string stored) in
       passwordMatches <- compare E userEnteredPassword hashedPassword ;;
       if passwordMatches then
         userId <- get_prop user "UserID" ;;
         name <- get_prop user "Username" ;;
         jwtEncodedUser <- sign E (VObj (obj [("userId", userId); ("username", name)])) ;;
         res_json (VObj (obj [("jwt", VStr jwtEncodedUser); ("success", VBool true)]))
       else
         res_status 401 ;;;
         res_json (VObj (obj [("err", VStr "Password is incorrect");
                              ("success", VBool false)])))
    (fun err =>
       res_status 500 ;;;
       res_json (VObj (obj [("error", VStr "Internal server error");
                            ("success", VBool false)]))).

(** [err.name] and [err.message] *)
Definition err_name (e : Thrown) : M S JsVal :=
  match e with
  | JsError n _ => ret (VStr n)
  | JsThrow v => get_prop v "name"
  end.

Definition err_message (e : Thrown) : M S JsVal :=
  match e with
  | JsError _ m => ret (VStr m)
  | JsThrow v => get_prop v "message"
  end.

Definition is_str (v : JsVal) (s : string) : bool :=
  match v with
  | VStr x => String.eqb x s
  | _ => false
  end.

Definition reject (code : Z) (msg : string) : M S unit :=
  res_status code ;;; res_json (VObj (obj [("error", VStr msg)])).

(** The two leading segments of [authHeader.split(' ')], when the header
    passes [!scheme || !jwtToken || scheme !== 'Bearer']. *)
Definition bearer_token (authHeader : string) : option string :=
  match split_on space authHeader with
  | scheme :: jwtToken :: _ =>
      if String.eqb scheme "" || String.eqb jwtToken ""
         || negb (String.eqb scheme "Bearer")
      then None else Some jwtToken
  | _ => None
  end.

(** The [catch] block of the gate, index.cjs lines 172-182. *)
Definition gate_catch (err : Thrown) : M S unit :=
  n <- err_name err ;;
  if is_str n "TokenExpiredError" then reject 401 "JWT expired"
  else if is_str n "JsonWebTokenError" then reject 401 "Invalid JWT token"
  else reject 500 "Internal Server Error".

(** The Authentication Gate, [app.use(async function verifyJwt ...)],
    index.cjs lines 154-183 and part_000 lines 125-158. *)
Definition verifyJwt (next : M S unit) : M S unit :=
  try_catch
    (r <- get_req ;;
     match authorization r with
     | None => reject 401 "Invalid authorization, no authorization header"
     | Some authHeader =>
         if String.eqb authHeader "" then
           reject 401 "Invalid authorization, no authorization header"
         else
           match bearer_token authHeader with
           | None => reject 401 "Invalid authorization, invalid authorization scheme"
           | Some jwtToken =>
               decodedJwtObject <- verify E (VStr jwtToken) ;;
               set_user decodedJwtObject ;;;
               next
           end
     end)
    gate_catch.
End Handlers.

(** ** index.cjs *)

Module Index.
Section App.
Context {S : Type}.
Variable E : Env S.

(** The layers in registration order.  [cors] and [bodyParser.json()]
    come first in the file; the request is taken as they leave it. *)
Definition app : list (Layer S) :=
  [ Use "lease" (lease E);
    Route "DELETE /car/:id" DELETE [Lit "car"; Par "id"] car_delete;
    Route "GET /car" GET [Lit "car"] (car_get E);
    Route "POST /car" POST [Lit "car"] (car_post E);
    Route "POST /register" POST [Lit "register"] (register E);
    Route "POST /login" POST [Lit "login"] (login E);
    Use "verifyJwt" (verifyJwt E) ].
End App.
End Index.

(** ** part_000 *)

Module Entries.
Section App.
Context {S : Type}.
Variable E : Env S.

Definition sql_insert_entry : string := "
    INSERT INTO entry_table (UserID, DateCreated, Title, Content, Mood, DeletedFlag)
    VALUES (:userId, NOW(), :title, :content, :mood, :deletedFlag);
  ".

(** [app.post('/entry_table')], lines 162-193. *)
Definition entry_post : M S unit :=
  r <- get_req ;;
  userId <- get_prop (user r) "userId" ;;
  title <- get_prop (body r) "title" ;;
  content <- get_prop (body r) "content" ;;
  mood <- get_prop (body r) "mood" ;;
  if negb (truthy title) || negb (truthy content) || negb (truthy mood) then
    reject 400 "Missing fields"
  else
    insert <- db_query E sql_insert_entry
                (Some (obj [("userId", userId); ("title", title);
                            ("content", content); ("mood", mood);
                            ("deletedFlag", VNum 0)])) ;;
    id <- get_prop insert "insertId" ;;
    res_json (VObj (obj [("id", id); ("userId", userId); ("title", title);
                         ("content", content); ("mood", mood)])).

Definition sql_update_entry : string :=
  "UPDATE entry_table SET Title = :title, Content = :content, Mood = :mood WHERE EntryID = :id".

(** [app.put('/entry_table')], lines 195-216. *)
Definition entry_put : M S unit :=
  try_catch
    (r <- get_req ;;
     id <- get_prop (body r) "id" ;;
     title <- get_prop (body r) "title" ;;
     content <- get_prop (body r) "content" ;;
     mood <- get_prop (body r) "mood" ;;
     _ <- db_query E sql_update_entry
            (Some (obj [("id", id); ("title", title); ("content", content);
                        ("mood", mood)])) ;;
     res_status 200 ;;;
     res_json (VObj (obj [("message", VStr "Entry updated successfully")])))
    (fun error => reject 500 "Internal server error").

Definition sql_select_entries : string :=
  "SELECT * FROM entry_table WHERE UserID = :userId AND DeletedFlag = 0;".

(** [app.get('/entry_table')], lines 219-231. *)
Definition entry_get : M S unit :=
  r <- get_req ;;
  userId <- get_prop (user r) "userId" ;;
  entries <- db_query E sql_select_entries (Some (obj [("userId", userId)])) ;;
  res_json (VObj (obj [("entries", entries)])).

Definition sql_soft_delete : string :=
  "UPDATE entry_table SET DeletedFlag = 1 WHERE EntryID = :entryId".

(** [app.delete('/entry_table/:id')], lines 234-243. *)
Definition entry_delete : M S unit :=
  r <- get_req ;;
  let entryId := default VUndef (params r !! "id") in
  _ <- db_query E sql_soft_delete (Some (obj [("entryId", entryId)])) ;;
  res_json (VObj (obj [("success", VBool true)])).

Definition sql_select_username : string :=
  "SELECT Username FROM user_table WHERE UserID = :userId;".

Definition is_empty_array (v : JsVal) : bool :=
  match v with
  | VArr [] => true
  | VStr s => String.eqb s ""
  | _ => false
  end.

Definition element0 (v : JsVal) : JsVal :=
  match v with
  | VArr (x :: _) => x
  | VStr (String a _) => VStr (String a EmptyString)
  | _ => VUndef
  end.

(** [app.get('/user_table')], lines 251-273. *)
Definition user_get : M S unit :=
  r <- get_req ;;
  userId <- get_prop (user r) "userId" ;;
  found <- db_query E sql_select_username (Some (obj [("userId", userId)])) ;;
  if negb (truthy found) || is_empty_array found then
    reject 404 "User not found"
  else
    username <- get_prop (element0 found) "Username" ;;
    res_json (VObj (obj [("username", username)])).

Definition app : list (Layer S) :=
  [ Use "lease" (lease E);
    Route "POST /register" POST [Lit "register"] (register E);
    Route "POST /login" POST [Lit "login"] (login E);
    Use "verifyJwt" (verifyJwt E);
    Route "POST /entry_table" POST [Lit "entry_table"] entry_post;
    Route "PUT /entry_table" PUT [Lit "entry_table"] entry_put;
    Route "GET /entry_table" GET [Lit "entry_table"] entry_get;
    Route "DELETE /entry_table/:id" DELETE [Lit "entry_table"; Par "id"] entry_delete;
    Route "GET /user_table" GET [Lit "user_table"] user_get ].
End App.
End Entries.

(** ** part_001 *)

Module Draft.
Section App.
Context {S : Type}.
Variable E : Env S.

Definition sql_insert_user : string :=
  "INSERT INTO user (user_name, password)
      VALUES (:username, :hashedPassword);".

(** [app.post('/register')], lines 98-121. *)
Definition register : M S unit :=
  try_catch
    (r <- get_req ;;
     password <- get_prop (body r) "password" ;;
     username <- get_prop (body r) "username" ;;
     hashedPassword <- hash E password 10 ;;
     user <- db_query E sql_insert_user
               (Some (obj [("username", username);
                           ("hashedPassword", VStr hashedPassword)])) ;;
     insertId <- get_prop user "insertId" ;;
     jwtEncodedUser <- sign E (spread_over "userId" insertId (body r)) ;;
     res_json (VObj (obj [("jwt", VStr jwtEncodedUser)])))
    (fun error =>
       res_json (VObj (obj [("error", VStr "An error occurred during registration")]))).

Definition sql_select_user : string :=
  "SELECT * FROM user WHERE user_name = :username".

(** [app.post('/log-in')], lines 123-148.  Neither [res.json] is
    returned from, and the [catch] only logs. *)
Definition login : M S unit :=
  try_catch
    (r <- get_req ;;
     username <- get_prop (body r) "username" ;;
     userEnteredPassword <- get_prop (body r) "password" ;;
     rows <- db_query E sql_select_user (Some (obj [("username", username)])) ;;
     user <- first_of rows ;;
     (if negb (truthy user) then res_json (VStr "Username not found")
      else ret tt) ;;;
     stored <- get_prop user "password" ;;
     let hashedPassword := VStr (to_js_string stored) in
     passwordMatches <- compare E userEnteredPassword hashedPassword ;;
     if passwordMatches then
       userId <- get_prop user "id" ;;
       name <- get_prop user "username" ;;
       jwtEncodedUser <- sign E (VObj (obj [("userId", userId); ("username", name)])) ;;
       res_json (VObj (obj [("jwt", VStr jwtEncodedUser)]))
     else
       res_json (VStr "Password not found"))
    (fun err => ret tt).

(** [err.status]: the errors of the libraries carry none. *)
Definition err_status (e : Thrown) : M S JsVal :=
  match e with
  | JsError _ _ => ret VUndef
  | JsThrow v => get_prop v "status"
  end.

(** [m.toUpperCase() === s] for a truthy [m]. *)
Definition upper_is (m : JsVal) (s : string) : M S bool :=
  match m with
  | VStr x => ret (String.eqb (toUpperCase x) s)
  | _ => throw (TypeError "err.message.toUpperCase is not a function")
  end.

(** The gate, [app.use(async function verifyJwt ...)], lines 151-182. *)
Definition verifyJwt (next : M S unit) : M S unit :=
  r <- get_req ;;
  let authHeader := authorization r in
  (if negb (truthy (from_option VStr VUndef authHeader))
   then res_json (VStr "Invalid authorization, no authorization headers")
   else ret tt) ;;;
  parts <- match authHeader with
           | None => throw (TypeError "Cannot read properties of undefined (reading 'split')")
           | Some h => ret (split_on space h)
           end ;;
  let scheme := from_option VStr VUndef (parts !! 0%nat) in
  let jwtToken := from_option VStr VUndef (parts !! 1%nat) in
  (if negb (is_str scheme "Bearer")
   then res_json (VStr "Invalid authorization, invalid authorization scheme")
   else ret tt) ;;;
  try_catch
    (decodedJwtObject <- verify E jwtToken ;;
     set_user decodedJwtObject)
    (fun err =>
       m <- err_message err ;;
       known <- (if truthy m then
                   a <- upper_is m "INVALID TOKEN" ;;
                   if a then ret true else upper_is m "JWT EXPIRED"
                 else ret false) ;;
       if known then
         st <- err_status err ;;
         set_reqStatus (js_or st (VNum 500)) ;;;
         set_body m ;;;
         emit (EvEmit "jwt-error")
       else
         throw (JsThrow m)) ;;;
  next.

Definition app : list (Layer S) :=
  [ Use "lease" (lease E);
    Route "DELETE /car/:id" DELETE [Lit "car"; Par "id"] car_delete;
    Route "GET /car" GET [Lit "car"] (car_get E);
    Route "POST /car" POST [Lit "car"] (car_post E);
    Route "POST /register" POST [Lit "register"] register;
    Route "POST /log-in" POST [Lit "log-in"] login;
    Use "verifyJwt" verifyJwt ].
End App.
End Draft.

(** ** A store and libraries to run the servers on

    [Sample.env] is one environment: a store with the [user_table] and
    [entry_table] columns the statements name, an engine that executes the
    statements of the servers by their text, and small stand-ins for bcrypt and
    jsonwebtoken whose errors carry the names and messages of the real
    ones.  The [car] table takes any value in any column. *)

Module Sample.
Record UserRow := mkUser {
  row_UserID : Z;
  row_Username : string;
  row_Password : string;
  row_email : JsVal
}.

Record EntryRow := mkEntry {
  row_EntryID : Z;
  row_owner : Z;
  row_Title : JsVal;
  row_Content : JsVal;
  row_Mood : JsVal;
  row_DeletedFlag : Z
}.

Record CarRow := mkCar {
  row_make_id : JsVal;
  row_model : JsVal;
  row_user_id : JsVal;
  row_deleted_flag : JsVal
}.

Record Db := mkDb {
  users : list UserRow;
  entries : list EntryRow;
  cars : list CarRow
}.

(** A value as a column stores it: [undefined] is written as NULL. *)
Definition stored (v : JsVal) : JsVal :=
  match v with
  | VUndef => VNull
  | other => other
  end.

Definition car_json (c : CarRow) : JsVal :=
  VObj (obj [("make_id", row_make_id c); ("model", row_model c);
             ("user_id", row_user_id c); ("deleted_flag", row_deleted_flag c)]).

Definition user_json (u : UserRow) : JsVal :=
  VObj (obj [("UserID", VNum (row_UserID u)); ("Username", VStr (row_Username u));
             ("Password", VStr (row_Password u)); ("Email", row_email u)]).

(** A row of part_001's [user] table, with the columns its statements
    name and the [id] its handler reads. *)
Definition draft_user_json (u : UserRow) : JsVal :=
  VObj (obj [("id", VNum (row_UserID u)); ("user_name", VStr (row_Username u));
             ("password", VStr (row_Password u))]).

Definition entry_json (e : EntryRow) : JsVal :=
  VObj (obj [("EntryID", VNum (row_EntryID e)); ("UserID", VNum (row_owner e));
             ("Title", row_Title e); ("Content", row_Content e);
             ("Mood", row_Mood e); ("DeletedFlag", VNum (row_DeletedFlag e))]).

Fixpoint digits (s : string) (acc : Z) : option Z :=
  match s with
  | EmptyString => Some acc
  | String a s' =>
      if is_digit a
      then digits s' (10 * acc + Z.of_nat (Ascii.nat_of_ascii a - 48))
      else None
  end.

(** The integer a bound value compares as against an integer column. *)
Definition as_int (v : JsVal) : option Z :=
  match v with
  | VNum n => Some n
  | VStr EmptyString => None
  | VStr s => digits s 0
  | _ => None
  end.

Definition is_id (v : JsVal) (n : Z) : bool :=
  match as_int v with
  | Some k => k =? n
  | None => false
  end.

Definition header (insertId affected : Z) : JsVal :=
  VObj (obj [("insertId", VNum insertId); ("affectedRows", VNum affected)]).

Definition fresh_id {A} (key : A -> Z) (rows : list A) : Z :=
  1 + foldr (fun r m => Z.max (key r) m) 0 rows.

Definition update_entry (title content mood id : JsVal) (e : EntryRow) : EntryRow :=
  if is_id id (row_EntryID e)
  then mkEntry (row_EntryID e) (row_owner e) title content mood (row_DeletedFlag e)
  else e.

Definition soft_delete (id : JsVal) (e : EntryRow) : EntryRow :=
  if is_id id (row_EntryID e)
  then mkEntry (row_EntryID e) (row_owner e) (row_Title e) (row_Content e)
         (row_Mood e) 1
  else e.

Definition visible_to (userId : JsVal) (e : EntryRow) : bool :=
  is_id userId (row_owner e) && (row_DeletedFlag e =? 0).

Definition named (username : JsVal) (u : UserRow) : bool :=
  match username with
  | VStr s => String.eqb s (row_Username u)
  | _ => false
  end.

Definition sql_error : Thrown :=
  JsError "Error" "You have an error in your SQL syntax".

Definition mysql (d : Db) (sql : string) (vals : list JsVal)
  : (Thrown + JsVal) * Db :=
  if String.eqb sql sql_mode || String.eqb sql sql_time_zone then
    (inr (header 0 0), d)
  else if String.eqb sql sql_insert_user then
    match vals with
    | [email; VStr hashed; VStr username] =>
        if existsb (named (VStr username)) (users d)
        then (inl (JsError "Error" "Duplicate entry for key 'Username'"), d)
        else
          let id := fresh_id row_UserID (users d) in
          (inr (header id 1),
           mkDb (users d ++ [mkUser id username hashed email]) (entries d) (cars d))
    | _ => (inl (JsError "Error" "Column cannot be null"), d)
    end
  else if String.eqb sql sql_select_user then
    match vals with
    | [username] => (inr (VArr (user_json <$> filter (fun u => named username u) (users d))), d)
    | _ => (inl sql_error, d)
    end
  else if String.eqb sql Entries.sql_insert_entry then
    match vals with
    | [userId; title; content; mood; deletedFlag] =>
        match as_int userId, as_int deletedFlag with
        | Some owner, Some flag =>
            let id := fresh_id row_EntryID (entries d) in
            (inr (header id 1),
             mkDb (users d) (entries d ++ [mkEntry id owner title content mood flag]) (cars d))
        | _, _ => (inl (JsError "Error" "Column cannot be null"), d)
        end
    | _ => (inl sql_error, d)
    end
  else if String.eqb sql Entries.sql_update_entry then
    match vals with
    | [title; content; mood; id] =>
        (inr (header 0 (Z.of_nat (length (filter (fun e => is_id id (row_EntryID e)) (entries d))))),
         mkDb (users d) (update_entry title content mood id <$> entries d) (cars d))
    | _ => (inl sql_error, d)
    end
  else if String.eqb sql Entries.sql_select_entries then
    match vals with
    | [userId] =>
        (inr (VArr (entry_json <$> filter (fun e => visible_to userId e) (entries d))), d)
    | _ => (inl sql_error, d)
    end
  else if String.eqb sql Entries.sql_soft_delete then
    match vals with
    | [entryId] =>
        (inr (header 0 (Z.of_nat (length (filter (fun e => is_id entryId (row_EntryID e)) (entries d))))),
         mkDb (users d) (soft_delete entryId <$> entries d) (cars d))
    | _ => (inl sql_error, d)
    end
  else if String.eqb sql Entries.sql_select_username then
    match vals with
    | [userId] =>
        (inr (VArr ((fun u => VObj (obj [("Username", VStr (row_Username u))]))
                      <$> filter (fun u => is_id userId (row_UserID u)) (users d))), d)
    | _ => (inl sql_error, d)
    end
  else if String.eqb sql Draft.sql_insert_user then
    match vals with
    | [VStr username; VStr hashed] =>
        let id := fresh_id row_UserID (users d) in
        (inr (header id 1),
         mkDb (users d ++ [mkUser id username hashed VNull]) (entries d) (cars d))
    | _ => (inl (JsError "Error" "Column cannot be null"), d)
    end
  else if String.eqb sql Draft.sql_select_user then
    match vals with
    | [username] =>
        (inr (VArr (draft_user_json <$> filter (fun u => named username u) (users d))), d)
    | _ => (inl sql_error, d)
    end
  else if String.eqb sql "SELECT * FROM car;" then
    (inr (VArr (car_json <$> cars d)), d)
  else if String.eqb sql sql_insert_car then
    match vals with
    | [makeId; model; user_id; deleted_flag] =>
        (inr (header (1 + Z.of_nat (length (cars d))) 1),
         mkDb (users d) (entries d)
           (cars d ++ [mkCar (stored makeId) (stored model) (stored user_id)
                         (stored deleted_flag)]))
    | _ => (inl sql_error, d)
    end
  else (inl (JsError "Error" "Table doesn't exist"), d).

(** The digest of [p] is [p] behind a fixed prefix. *)
Definition toy_hash (data : JsVal) (rounds : Z) : Thrown + string :=
  match data with
  | VStr p => inr ("$2b$10$" +:+ p)
  | _ => inl (JsError "Error" "data and salt arguments required")
  end.

Definition toy_compare (data digest : JsVal) : Thrown + bool :=
  match data, digest with
  | VStr p, VStr d => inr (String.eqb ("$2b$10$" +:+ p) d)
  | _, _ => inl (JsError "Error" "data and hash arguments required")
  end.

Definition toy_sign (claims : JsVal) : Thrown + string :=
  match claims with
  | VObj _ => inr ("signed." +:+ to_js_string (prop claims "username"))
  | _ => inl (JsError "Error" "Expected payload to be a plain object")
  end.

(** Tokens: two good ones, an expired one, and three bad ones. *)
Definition toy_verify (token : JsVal) : Thrown + JsVal :=
  match token with
  | VStr "alice.jwt" => inr (VObj (obj [("userId", VNum 1); ("username", VStr "alice")]))
  | VStr "bob.jwt" => inr (VObj (obj [("userId", VNum 2); ("username", VStr "bob")]))
  | VStr "old.jwt" => inl (JsError "TokenExpiredError" "jwt expired")
  | VStr "forged.jwt" => inl (JsError "JsonWebTokenError" "invalid signature")
  | VStr "garbled.jwt" => inl (JsError "JsonWebTokenError" "invalid token")
  | VStr "broken.jwt" => inl (JsError "SyntaxError" "Unexpected token")
  | VStr _ => inl (JsError "JsonWebTokenError" "jwt malformed")
  | _ => inl (JsError "JsonWebTokenError" "jwt must be provided")
  end.

Definition env : Env Db :=
  mkEnv Db mysql toy_hash toy_compare toy_sign toy_verify.

(** alice (id 1) and bob (id 2); entry 7 belongs to bob. *)
Definition db0 : Db :=
  mkDb [ mkUser 1 "alice" "$2b$10$wonderland" VNull;
         mkUser 2 "bob" "$2b$10$builder" VNull ]
       [ mkEntry 7 2 (VStr "bob's day") (VStr "private") (VStr "calm") 0 ]
       [].

(** A request arriving at a server whose pool has connection 0 free. *)
Definition world0 (r : Req) : World Db := arrive r [0%nat] [] db0.
End Sample.

(** * The vocabulary of the properties *)

Inductive Revision := index_cjs | part_000 | part_001.

(** The server of each file. *)
Definition server {S} (E : Env S) (rev : Revision) : list (Layer S) :=
  match rev with
  | index_cjs => Index.app E
  | part_000 => Entries.app E
  | part_001 => Draft.app E
  end.

(** ** Traces *)

(** [tame P m]: whatever [m] does, it adds to the trace only events that
    satisfy [P], and it leaves the pool, [req.db] and the request's
    [Authorization] header as they were. *)
Definition tame {S : Type} (P : Event -> Prop) {A : Type} (m : M S A) : Prop :=
  forall w, exists evs,
    trace (m w).2 = trace w ++ evs /\ Forall P evs /\
    idle (m w).2 = idle w /\ leased (m w).2 = leased w /\
    db (req (m w).2) = db (req w) /\
    authorization (req (m w).2) = authorization (req w).

(** The events of the calls into the libraries. *)
Definition library_event (e : Event) : Prop :=
  match e with
  | EvQuery _ _ | EvSign _ | EvVerify _ | EvEmit _ => True
  | _ => False
  end.

(** A layer is tame when entering it is allowed and its handler is tame,
    given a tame rest of the chain. *)
Definition tame_layer {S : Type} (P : Event -> Prop) (l : Layer S) : Prop :=
  P (EvEnter (layer_label l)) /\
  match l with
  | Use _ mw => forall next, tame P next -> tame P (mw next)
  | Route _ _ _ h => tame P h
  end.

Definition pool_event (e : Event) : Prop :=
  match e with
  | EvAcquire _ | EvRelease _ => True
  | _ => False
  end.

(** An event that does not touch the pool. *)
Definition quiet (e : Event) : Prop := ~ pool_event e.

(** How many times a trace returns a connection to the pool. *)
Fixpoint releases (t : list Event) : nat :=
  match t with
  | [] => 0
  | EvRelease _ :: t' => S (releases t')
  | _ :: t' => releases t'
  end.

(** An event that is not the entry into one of the routes [labels]. *)
Definition not_entering (labels : list string) (e : Event) : Prop :=
  match e with
  | EvEnter l => l ∉ labels
  | _ => True
  end.

(** ** The gate *)

(** The credential the gate reads from a request. *)
Definition credential (r : Req) : option string :=
  match authorization r with
  | Some h => bearer_token h
  | None => None
  end.

(** The claims the gate attaches: those of a presented credential that
    [jwt.verify] accepts. *)
Definition verified_claims {S} (E : Env S) (r : Req) : option JsVal :=
  match credential r with
  | Some tok =>
      match jwt_verify E (VStr tok) with
      | inr claims => Some claims
      | inl _ => None
      end
  | None => None
  end.

(** Status and message of the response to a failed verification, by the
    [name] of the error. *)
Definition verdict (name : string) : Z * string :=
  if String.eqb name "TokenExpiredError" then (401, "JWT expired")
  else if String.eqb name "JsonWebTokenError" then (401, "Invalid JWT token")
  else (500, "Internal Server Error").

Definition error_response (code : Z) (msg : string) : Response :=
  mkResponse code (VObj (obj [("error", VStr msg)])).

Fixpoint has_char (c : ascii) (s : string) : bool :=
  match s with
  | EmptyString => false
  | String a s' => Ascii.eqb a c || has_char c s'
  end.

(** [h] is [Bearer], one space, the credential [tok] (not empty, no
    space in it), and then nothing or a space and anything. *)
Definition two_segments (h tok : string) : Prop :=
  tok ≠ "" /\ has_char space tok = false /\
  (h = "Bearer " +:+ tok \/ exists more, h = "Bearer " +:+ tok +:+ " " +:+ more).

(** ** Before and after the gate *)

Definition is_gate {S} (l : Layer S) : bool :=
  String.eqb (layer_label l) "verifyJwt".

(** The layers registered before the gate, and those registered after it. *)
Fixpoint before_gate {S} (layers : list (Layer S)) : list (Layer S) :=
  match layers with
  | [] => []
  | l :: rest => if is_gate l then [] else l :: before_gate rest
  end.

Fixpoint after_gate {S} (layers : list (Layer S)) : list (Layer S) :=
  match layers with
  | [] => []
  | l :: rest => if is_gate l then rest else after_gate rest
  end.

Fixpoint routes {S} (layers : list (Layer S)) : list string :=
  match layers with
  | [] => []
  | Route label _ _ _ :: rest => label :: routes rest
  | Use _ _ :: rest => routes rest
  end.

Definition public_routes {S} (app : list (Layer S)) : list string :=
  routes (before_gate app).

Definition protected_routes {S} (app : list (Layer S)) : list string :=
  routes (after_gate app).

(** The server with everything after the gate taken away. *)
Fixpoint up_to_gate {S} (layers : list (Layer S)) : list (Layer S) :=
  match layers with
  | [] => []
  | l :: rest => if is_gate l then [l] else l :: up_to_gate rest
  end.

(** A middleware that hands the request on with its header unchanged. *)
Definition passes_header {S : Type} (mw : M S unit -> M S unit) : Prop :=
  forall next1 next2 (w : World S),
    (forall w', authorization (req w') = authorization (req w) ->
                next1 w' = next2 w') ->
    mw next1 w = mw next2 w.

Definition layer_passes_header {S : Type} (l : Layer S) : Prop :=
  match l with
  | Use _ mw => passes_header mw
  | Route _ _ _ _ => True
  end.

(** ** Registration and login *)

(** The [/register] handler of a file, the key under which it puts the
    insert id, and its insert statement with the values bound to it. *)
Definition register_of {S} (E : Env S) (rev : Revision) : M S unit :=
  match rev with
  | part_001 => Draft.register E
  | _ => register E
  end.

Definition id_key (rev : Revision) : string :=
  match rev with
  | part_001 => "userId"
  | _ => "UserID"
  end.

Definition register_insert (rev : Revision) (b : gmap string JsVal)
    (hashed : string) : string * list JsVal :=
  match rev with
  | part_001 =>
      (Draft.sql_insert_user,
       [default VUndef (b !! "username"); VStr hashed])
  | _ =>
      (sql_insert_user,
       [default VUndef (b !! "email"); VStr hashed; default VUndef (b !! "username")])
  end.

Definition not_found : Response :=
  mkResponse 404 (VObj (obj [("error", VStr "Username not found")])).

Definition wrong_password : Response :=
  mkResponse 401 (VObj (obj [("err", VStr "Password is incorrect");
                             ("success", VBool false)])).

Definition login_failed : Response :=
  mkResponse 500 (VObj (obj [("error", VStr "Internal server error");
                             ("success", VBool false)])).

Definition logged_in (code : Z) (t : string) : Response :=
  mkResponse code (VObj (obj [("jwt", VStr t); ("success", VBool true)])).

(** The claims [/login] signs for a row of [user_table]. *)
Definition login_claims (row : JsVal) : JsVal :=
  VObj (obj [("userId", prop row "UserID"); ("username", prop row "Username")]).

(** What [/login] of index.cjs and part_000 answers, given the rows the
    select returned. *)
Definition login_answer {S} (E : Env S) (code : Z) (password : JsVal)
    (rows : list JsVal) : Response :=
  match rows with
  | [] => not_found
  | row :: _ =>
      if truthy row then
        match bcrypt_compare E password (VStr (to_js_string (prop row "Password"))) with
        | inr true =>
            match jwt_sign E (login_claims row) with
            | inr t => logged_in code t
            | inl _ => login_failed
            end
        | inr false => wrong_password
        | inl _ => login_failed
        end
      else not_found
  end.

(** ** Requests to the sample servers *)

(** A request without a header, to a protected route of part_000. *)
Definition anonymous_entries_request : World Sample.Db :=
  Sample.world0 (incoming GET ["entry_table"] None (VObj ∅)).

Definition bob_reads_entries : World Sample.Db :=
  Sample.world0 (incoming GET ["entry_table"] (Some "Bearer bob.jwt") (VObj ∅)).

(** alice, with her own token, rewrites entry 7; then she deletes it. *)
Definition alice_puts_entry_7 : World Sample.Db :=
  Sample.world0
    (incoming PUT ["entry_table"] (Some "Bearer alice.jwt")
       (VObj (obj [("id", VNum 7); ("title", VStr "rewritten");
                   ("content", VStr "by alice"); ("mood", VStr "smug")]))).

Definition alice_deletes_entry_7 : World Sample.Db :=
  Sample.world0
    (incoming DELETE ["entry_table"; "7"] (Some "Bearer alice.jwt") (VObj ∅)).

Definition alice_with_trailing_segments : World Sample.Db :=
  Sample.world0
    (incoming GET ["entry_table"] (Some "Bearer alice.jwt and more") (VObj ∅)).

Definition anonymous_get_car : World Sample.Db :=
  Sample.world0 (incoming GET ["car"] None (VObj ∅)).

Definition anonymous_post_car : World Sample.Db :=
  Sample.world0
    (incoming POST ["car"] None
       (VObj (obj [("make_id", VNum 5); ("model", VStr "Civic")]))).

Definition login_request (route : string) (username password : string)
  : World Sample.Db :=
  Sample.world0
    (incoming POST [route] None
       (VObj (obj [("username", VStr username); ("password", VStr password)]))).

Definition request_with_token (token : string) : World Sample.Db :=
  Sample.world0
    (incoming GET ["entry_table"] (Some ("Bearer " +:+ token)) (VObj ∅)).

(** Requests at a handler, below the lease: connection 0 is in [req.db]. *)
Definition leased_request (m : Method) (p : list string) (b : JsVal)
  : World Sample.Db :=
  mkWorld (mkReq m p None b ∅ (Some 0%nat) VUndef VUndef)
    200 None [] [0%nat] Sample.db0 [].

Definition carol_registers : World Sample.Db :=
  leased_request POST ["register"]
    (VObj (obj [("username", VStr "carol"); ("password", VStr "s3cret")])).

Definition car_request : World Sample.Db :=
  leased_request POST ["car"]
    (VObj (obj [("make_id", VNum 5); ("model", VStr "Civic")])).

(** ** Worlds a request passes through *)

Definition with_db (r : Req) (c : Conn) : Req :=
  mkReq (method r) (path r) (authorization r) (body r) (params r)
    (Some c) (user r) (reqStatus r).

Definition with_user (r : Req) (u : JsVal) : Req :=
  mkReq (method r) (path r) (authorization r) (body r) (params r)
    (db r) u (reqStatus r).

(** After a statement: one more event, the store the engine left. *)
Definition after_query {S} (w : World S) (sql : string) (vals : list JsVal)
    (s' : S) : World S :=
  mkWorld (req w) (statusCode w) (sent w) (idle w) (leased w) s'
    (trace w ++ [EvQuery sql vals]).

(** After [res.json(v)] on a response not yet sent. *)
Definition answered {S} (w : World S) (v : JsVal) : World S :=
  mkWorld (req w) (statusCode w) (Some (mkResponse (statusCode w) v))
    (idle w) (leased w) (store w) (trace w).

(** The world in which the lease calls [next]: connection [c] in [req.db],
    the two [SET] statements sent, the store as they left it. *)
Definition leased_world {S} (w : World S) (c : Conn) (rest : list Conn)
    (s' : S) : World S :=
  mkWorld (with_db (req w) c) (statusCode w) (sent w) rest (c :: leased w) s'
    (trace w ++ [EvAcquire c; EvQuery sql_mode []; EvQuery sql_time_zone []]).

(** The world in which the gate calls [next]: the token verified, its
    claims in [req.user]. *)
Definition admitted {S} (w : World S) (tok : string) (claims : JsVal) : World S :=
  mkWorld (with_user (req w) claims) (statusCode w) (sent w) (idle w) (leased w)
    (store w) (trace w ++ [EvVerify (VStr tok)]).

(** ** More requests to the sample servers *)

(** alice past the lease and the gate of part_000: connection 0 in
    [req.db], her claims in [req.user]. *)
Definition alice_claims : JsVal :=
  VObj (obj [("userId", VNum 1); ("username", VStr "alice")]).

Definition alice_at (m : Method) (p : list string) (b : JsVal)
    (ps : gmap string JsVal) : World Sample.Db :=
  mkWorld (mkReq m p (Some "Bearer alice.jwt") b ps (Some 0%nat) alice_claims VUndef)
    200 None [] [0%nat] Sample.db0 [].

Definition entry_without_content : World Sample.Db :=
  alice_at POST ["entry_table"] (VObj (obj [("title", VStr "monday")])) ∅.

(** A new entry whose body also names an owner, bob. *)
Definition entry_naming_bob : World Sample.Db :=
  alice_at POST ["entry_table"]
    (VObj (obj [("title", VStr "monday"); ("content", VStr "rain");
                ("mood", VStr "calm"); ("userId", VNum 2)])) ∅.

(** An update and a delete of entry 99, which no row has. *)
Definition alice_touches_entry_99 : World Sample.Db :=
  alice_at PUT ["entry_table"]
    (VObj (obj [("id", VNum 99); ("title", VStr "t"); ("content", VStr "c");
                ("mood", VStr "m")]))
    (obj [("id", VStr "99")]).

(** A login below the lease. *)
Definition leased_login (route username password : string) : World Sample.Db :=
  leased_request POST [route]
    (VObj (obj [("username", VStr username); ("password", VStr password)])).

(** A header with another scheme before a good token. *)
Definition basic_scheme_request : World Sample.Db :=
  Sample.world0
    (incoming GET ["entry_table"] (Some "Basic alice.jwt") (VObj ∅)).

(** An environment whose engine refuses every statement. *)
Definition offline_engine (d : Sample.Db) (sql : string) (vals : list JsVal)
  : (Thrown + JsVal) * Sample.Db :=
  (inl (JsError "Error" "Connection lost: The server closed the connection."), d).

Definition offline_env : Env Sample.Db :=
  mkEnv Sample.Db offline_engine Sample.toy_hash Sample.toy_compare
    Sample.toy_sign Sample.toy_verify.

(** ** Answers of the entry routes *)

(** What [GET /user_table] sends for the rows of its select: 404 for no
    row, the [Username] of the first row otherwise, nothing when that row
    is [null] (reading its property throws). *)
Definition user_answer (code : Z) (rows : list JsVal) : option Response :=
  match rows with
  | [] => Some (error_response 404 "User not found")
  | row :: _ =>
      if nullish row then None
      else Some (mkResponse code (VObj (obj [("username", prop row "Username")])))
  end.

(** ** Answers of registration *)

Definition registration_failed : JsVal :=
  VObj (obj [("error", VStr "An error occurred during registration")]).

(** The body of the answer to a registration that succeeded. *)
Definition registered (rev : Revision) (t : string) : JsVal :=
  match rev with
  | part_001 => VObj (obj [("jwt", VStr t)])
  | _ => VObj (obj [("jwt", VStr t); ("success", VBool true)])
  end.

(** * Properties *)

(** ** What a computation leaves alone *)

Section Tame.
Context {S : Type}.
Variable P : Event -> Prop.

Lemma tame_silent {A} (m : M S A) :
  (forall w, trace (m w).2 = trace w /\ idle (m w).2 = idle w /\
             leased (m w).2 = leased w /\ db (req (m w).2) = db (req w) /\
             authorization (req (m w).2) = authorization (req w)) ->
  tame (S:=S) P m.
Proof.
  intros H w. exists []. destruct (H w) as (Ht & Hi & Hl & Hd & Ha).
  rewrite app_nil_r. repeat split; auto.
Qed.

Lemma tame_ret {A} (a : A) : tame (S:=S) P (ret a).
Proof. apply tame_silent. intros w. repeat split. Qed.

Lemma tame_throw {A} (e : Thrown) : tame (S:=S) P (@throw S A e).
Proof. apply tame_silent. intros w. repeat split. Qed.

Lemma tame_bind {A B} (m : M S A) (k : A -> M S B) :
  tame (S:=S) P m -> (forall a, tame (S:=S) P (k a)) -> tame (S:=S) P (bind m k).
Proof.
  intros Hm Hk w. unfold bind.
  destruct (Hm w) as (ev1 & Ht & HP & Hi & Hl & Hd & Ha).
  destruct (m w) as [[a|e] w1]; simpl in *.
  - destruct (Hk a w1) as (ev2 & Ht2 & HP2 & Hi2 & Hl2 & Hd2 & Ha2).
    exists (ev1 ++ ev2). rewrite Ht2, Ht, Hi2, Hl2, Hd2, Ha2, app_assoc.
    repeat split; auto. apply Forall_app; auto.
  - exists ev1. repeat split; auto.
Qed.

Lemma tame_try_catch {A} (m : M S A) (h : Thrown -> M S A) :
  tame (S:=S) P m -> (forall e, tame (S:=S) P (h e)) -> tame (S:=S) P (try_catch m h).
Proof.
  intros Hm Hh w. unfold try_catch.
  destruct (Hm w) as (ev1 & Ht & HP & Hi & Hl & Hd & Ha).
  destruct (m w) as [[a|e] w1]; simpl in *.
  - exists ev1. repeat split; auto.
  - destruct (Hh e w1) as (ev2 & Ht2 & HP2 & Hi2 & Hl2 & Hd2 & Ha2).
    exists (ev1 ++ ev2). rewrite Ht2, Ht, Hi2, Hl2, Hd2, Ha2, app_assoc.
    repeat split; auto. apply Forall_app; auto.
Qed.

Lemma tame_get_req : tame (S:=S) P (@get_req S).
Proof. apply tame_silent. intros w. repeat split. Qed.

Lemma tame_emit e : P e -> tame (S:=S) P (@emit S e).
Proof.
  intros He w. exists [e]. simpl. repeat split; auto.
Qed.

Lemma tame_set_user u : tame (S:=S) P (@set_user S u).
Proof. apply tame_silent. intros w. repeat split. Qed.

Lemma tame_set_params ps : tame (S:=S) P (@set_params S ps).
Proof. apply tame_silent. intros w. repeat split. Qed.

Lemma tame_set_body b : tame (S:=S) P (@set_body S b).
Proof. apply tame_silent. intros w. repeat split. Qed.

Lemma tame_set_reqStatus v : tame (S:=S) P (@set_reqStatus S v).
Proof. apply tame_silent. intros w. repeat split. Qed.

Lemma tame_res_status n : tame (S:=S) P (@res_status S n).
Proof. apply tame_silent. intros w. repeat split. Qed.

Lemma tame_res_json v : tame (S:=S) P (@res_json S v).
Proof.
  apply tame_silent. intros w. unfold res_json.
  destruct (sent w); repeat split.
Qed.

Lemma tame_get_prop v k : tame (S:=S) P (@get_prop S v k).
Proof. unfold get_prop. destruct (nullish v); [apply tame_throw | apply tame_ret]. Qed.

Lemma tame_first_of v : tame (S:=S) P (@first_of S v).
Proof.
  unfold first_of. destruct v as [| | | |[|a s]|[|x xs]|];
    first [apply tame_throw | apply tame_ret].
Qed.

Lemma tame_lift {A} (r : Thrown + A) : tame (S:=S) P (@lift S A r).
Proof. destruct r; [apply tame_throw | apply tame_ret]. Qed.

Hypothesis P_library : forall e, library_event e -> P e.

Variable E : Env S.

Lemma tame_db_query sql values : tame (S:=S) P (db_query E sql values).
Proof.
  unfold db_query. apply tame_bind; [apply tame_get_req|]. intros r.
  destruct (db r); [|apply tame_throw].
  destruct (bind_named sql values) as [e|vals]; [apply tame_throw|].
  apply tame_bind; [apply tame_emit, P_library; exact I|]. intros _.
  apply tame_silent. intros w.
  destruct (db_exec E (store w) sql vals) as [[e|v] s']; repeat split.
Qed.

Lemma tame_hash data rounds : tame (S:=S) P (hash E data rounds).
Proof. apply tame_lift. Qed.

Lemma tame_compare data digest : tame (S:=S) P (compare E data digest).
Proof. apply tame_lift. Qed.

Lemma tame_sign claims : tame (S:=S) P (sign E claims).
Proof.
  unfold sign. apply tame_bind; [apply tame_emit, P_library; exact I|].
  intros _. apply tame_lift.
Qed.

Lemma tame_verify token : tame (S:=S) P (verify E token).
Proof.
  unfold verify. apply tame_bind; [apply tame_emit, P_library; exact I|].
  intros _. apply tame_lift.
Qed.

Lemma tame_final_handler : tame (S:=S) P (@final_handler S).
Proof.
  intros w. unfold final_handler. destruct (sent w) eqn:Hs.
  - exists []. rewrite app_nil_r. repeat split; auto.
  - exists []. rewrite app_nil_r. unfold bind, res_status, res_json. simpl.
    rewrite Hs. repeat split; auto.
Qed.
End Tame.

(** Stepping through a handler: one rule per construct. *)
Ltac tame_step :=
  lazymatch goal with
  | |- tame _ (bind _ _) => apply tame_bind; [|intros ?]
  | |- tame _ (try_catch _ _) => apply tame_try_catch; [|intros ?]
  | |- tame _ (ret _) => apply tame_ret
  | |- tame _ (throw _) => apply tame_throw
  | |- tame _ get_req => apply tame_get_req
  | |- tame _ (set_user _) => apply tame_set_user
  | |- tame _ (set_params _) => apply tame_set_params
  | |- tame _ (set_body _) => apply tame_set_body
  | |- tame _ (set_reqStatus _) => apply tame_set_reqStatus
  | |- tame _ (res_status _) => apply tame_res_status
  | |- tame _ (res_json _) => apply tame_res_json
  | |- tame _ (get_prop _ _) => apply tame_get_prop
  | |- tame _ (first_of _) => apply tame_first_of
  | |- tame _ (db_query _ _ _) => apply tame_db_query; assumption
  | |- tame _ (hash _ _ _) => apply tame_hash
  | |- tame _ (compare _ _ _) => apply tame_compare
  | |- tame _ (sign _ _) => apply tame_sign; assumption
  | |- tame _ (verify _ _) => apply tame_verify; assumption
  | |- tame _ (emit _) => apply tame_emit
  | |- tame _ (reject _ _) => unfold reject
  | |- tame _ (if ?b then _ else _) => destruct b
  | |- tame _ (match ?x with _ => _ end) => destruct x
  | |- tame _ (let _ := _ in _) => cbv zeta
  end.

Ltac tame_handler :=
  repeat first
    [ tame_step
    | progress unfold gate_catch, err_name, err_message, is_str ].

Section TameHandlers.
Context {S : Type}.
Variable P : Event -> Prop.
Hypothesis P_library : forall e, library_event e -> P e.
Variable E : Env S.

Lemma tame_car_delete : tame (S:=S) P car_delete.
Proof. unfold car_delete. tame_handler. Qed.

Lemma tame_car_get : tame P (car_get E).
Proof. unfold car_get. tame_handler. Qed.

Lemma tame_car_post : tame P (car_post E).
Proof. unfold car_post. tame_handler. Qed.

Lemma tame_register : tame P (register E).
Proof. unfold register. tame_handler. Qed.

Lemma tame_login : tame P (login E).
Proof. unfold login. tame_handler. Qed.

Lemma tame_verifyJwt next : tame P next -> tame P (verifyJwt E next).
Proof. intros Hn. unfold verifyJwt. tame_handler; assumption. Qed.

Lemma tame_entry_post : tame P (Entries.entry_post E).
Proof. unfold Entries.entry_post. tame_handler. Qed.

Lemma tame_entry_put : tame P (Entries.entry_put E).
Proof. unfold Entries.entry_put. tame_handler. Qed.

Lemma tame_entry_get : tame P (Entries.entry_get E).
Proof. unfold Entries.entry_get. tame_handler. Qed.

Lemma tame_entry_delete : tame P (Entries.entry_delete E).
Proof. unfold Entries.entry_delete. tame_handler. Qed.

Lemma tame_user_get : tame P (Entries.user_get E).
Proof. unfold Entries.user_get. tame_handler. Qed.

Lemma tame_draft_register : tame P (Draft.register E).
Proof. unfold Draft.register. tame_handler. Qed.

Lemma tame_draft_login : tame P (Draft.login E).
Proof. unfold Draft.login. tame_handler. Qed.

Lemma tame_draft_verifyJwt next : tame P next -> tame P (Draft.verifyJwt E next).
Proof.
  intros Hn. unfold Draft.verifyJwt, Draft.err_status, Draft.upper_is.
  tame_handler; try assumption. apply P_library; exact I.
Qed.

Lemma tame_dispatch (layers : list (Layer S)) :
  Forall (tame_layer P) layers -> tame P (dispatch layers).
Proof.
  induction 1 as [|l rest [Hl Hh] _ IH]; simpl.
  - apply tame_final_handler.
  - destruct l as [label mw | label m pat h]; simpl in *.
    + apply tame_bind; [apply tame_emit; assumption|]. intros _.
      apply Hh, IH.
    + apply tame_bind; [apply tame_get_req|]. intros r.
      destruct (route_matches m pat r); [|exact IH].
      apply tame_bind; [apply tame_emit; assumption|]. intros _.
      apply tame_bind; [apply tame_set_params|]. intros _. exact Hh.
Qed.
End TameHandlers.

(** ** The connection lease *)

Lemma quiet_library e : library_event e -> quiet e.
Proof. destruct e; simpl; intros H []; destruct H. Qed.

Lemma quiet_enter label : quiet (EvEnter label).
Proof. intros []. Qed.

Lemma filter_others (c : Conn) (l : list Conn) :
  c ∉ l -> filter (fun x => x ≠ c) l = l.
Proof.
  induction l as [|x l IH]; intros Hc; [reflexivity|].
  apply not_elem_of_cons in Hc as [Hx Hl].
  rewrite filter_cons_True by congruence. f_equal. auto.
Qed.

Section Lease.
Context {S : Type}.
Variable P : Event -> Prop.
Hypothesis P_library : forall e, library_event e -> P e.
Variable E : Env S.

(** Once [pool.getConnection()] has given a connection, every way out of
    the middleware passes through one [release()], and it is the last
    thing the middleware does: the failure of either [SET] statement,
    [next] returning, and [next] throwing. *)
Lemma lease_paths (next : M S unit) (w : World S) c rest :
  tame P next ->
  idle w = c :: rest ->
  exists evs,
    trace (lease E next w).2 = trace w ++ EvAcquire c :: evs ++ [EvRelease c] /\
    Forall P evs /\
    idle (lease E next w).2 = idle w /\
    leased (lease E next w).2 = filter (fun x => x ≠ c) (leased w).
Proof.
  intros Hnext Hidle.
  assert (Hkeep : filter (fun x => x ≠ c) (c :: leased w)
                  = filter (fun x => x ≠ c) (leased w)).
  { apply filter_cons_False. intros H. apply H. reflexivity. }
  unfold lease, try_catch, bind, pool_getConnection, set_db, get_req, set_req.
  rewrite Hidle. simpl.
  match goal with |- context [db_query E sql_mode None ?w0] => set (w1 := w0) end.
  destruct (tame_db_query P P_library E sql_mode None w1)
    as (ev1 & T1 & Q1 & I1 & L1 & D1 & _).
  destruct (db_query E sql_mode None w1) as [r1 w2]; simpl in *.
  destruct r1 as [u1|e1]; cycle 1.
  { rewrite D1. simpl. exists ev1. rewrite T1, I1, L1.
    split_and!; auto. rewrite <- !app_assoc. reflexivity. }
  destruct (tame_db_query P P_library E sql_time_zone None w2)
    as (ev2 & T2 & Q2 & I2 & L2 & D2 & _).
  destruct (db_query E sql_time_zone None w2) as [r2 w3]; simpl in *.
  destruct r2 as [u2|e2]; cycle 1.
  { rewrite D2, D1. simpl. exists (ev1 ++ ev2).
    rewrite T2, T1, I2, I1, L2, L1.
    split_and!; auto; [|apply Forall_app; auto].
    rewrite <- !app_assoc. reflexivity. }
  destruct (Hnext w3) as (ev3 & T3 & Q3 & I3 & L3 & D3 & _).
  destruct (next w3) as [r3 w4]; simpl in *.
  destruct r3 as [u3|e3].
  - unfold req_db_release, bind, get_req. rewrite D3, D2, D1. simpl.
    exists (ev1 ++ ev2 ++ ev3).
    rewrite T3, T2, T1, I3, I2, I1, L3, L2, L1.
    split_and!; auto; [|rewrite !Forall_app; auto].
    rewrite <- !app_assoc. reflexivity.
  - rewrite D3, D2, D1. simpl. exists (ev1 ++ ev2 ++ ev3).
    rewrite T3, T2, T1, I3, I2, I1, L3, L2, L1.
    split_and!; auto; [|rewrite !Forall_app; auto].
    rewrite <- !app_assoc. reflexivity.
Qed.
End Lease.

(** What follows the lease in each file is tame. *)
Section Downstream.
Context {S : Type}.
Variable P : Event -> Prop.
Hypothesis P_library : forall e, library_event e -> P e.
Hypothesis P_enter : forall label, P (EvEnter label).
Variable E : Env S.

Lemma tame_index_downstream : tame P (dispatch (tail (Index.app E))).
Proof.
  apply tame_dispatch. simpl.
  repeat (apply Forall_cons; split; [split; [apply P_enter|]|]);
    try apply Forall_nil; simpl;
    auto using tame_car_delete, tame_car_get, tame_car_post, tame_register,
      tame_login, tame_verifyJwt.
Qed.

Lemma tame_entries_downstream : tame P (dispatch (tail (Entries.app E))).
Proof.
  apply tame_dispatch. simpl.
  repeat (apply Forall_cons; split; [split; [apply P_enter|]|]);
    try apply Forall_nil; simpl;
    auto using tame_register, tame_login, tame_verifyJwt, tame_entry_post,
      tame_entry_put, tame_entry_get, tame_entry_delete, tame_user_get.
Qed.

Lemma tame_draft_downstream : tame P (dispatch (tail (Draft.app E))).
Proof.
  apply tame_dispatch. simpl.
  repeat (apply Forall_cons; split; [split; [apply P_enter|]|]);
    try apply Forall_nil; simpl;
    auto using tame_car_delete, tame_car_get, tame_car_post,
      tame_draft_register, tame_draft_login, tame_draft_verifyJwt.
Qed.
End Downstream.

Lemma releases_app (a b : list Event) :
  releases (a ++ b) = (releases a + releases b)%nat.
Proof.
  induction a as [|e a IH]; [reflexivity|].
  destruct e; simpl; rewrite IH; reflexivity.
Qed.

Lemma releases_quiet (evs : list Event) : Forall quiet evs -> releases evs = 0%nat.
Proof.
  induction 1 as [|e evs He _ IH]; [reflexivity|].
  destruct e; simpl; auto. exfalso. apply He. exact I.
Qed.

(** ** The Authentication Gate of index.cjs and part_000 *)

Lemma bearer_token_empty : bearer_token "" = None.
Proof. reflexivity. Qed.

Section Gate.
Context {S : Type}.
Variable E : Env S.

Lemma reject_sends code msg (w : World S) :
  sent w = None ->
  (reject code msg w).1 = Ret tt /\
  sent (reject code msg w).2 = Some (error_response code msg) /\
  trace (reject code msg w).2 = trace w /\
  store (reject code msg w).2 = store w.
Proof.
  intros Hs. unfold reject, bind, res_status, res_json. simpl. rewrite Hs.
  repeat split.
Qed.

(** Step 1: no header. *)
Lemma gate_no_header next (w : World S) :
  sent w = None ->
  authorization (req w) = None \/ authorization (req w) = Some "" ->
  verifyJwt E next w
    = reject 401 "Invalid authorization, no authorization header" w.
Proof.
  intros Hs Hh. unfold verifyJwt, try_catch, bind at 1, get_req.
  destruct Hh as [-> | ->]; simpl;
    unfold reject, bind, res_status, res_json; simpl; rewrite Hs; reflexivity.
Qed.

(** Step 2: a header from which [bearer_token] takes no credential. *)
Lemma gate_bad_scheme next (w : World S) h :
  sent w = None ->
  authorization (req w) = Some h -> h ≠ "" -> bearer_token h = None ->
  verifyJwt E next w
    = reject 401 "Invalid authorization, invalid authorization scheme" w.
Proof.
  intros Hs Hh Hne Hb. unfold verifyJwt, try_catch, bind at 1, get_req.
  rewrite Hh. simpl.
  destruct (String.eqb_spec h ""); [contradiction|]. rewrite Hb.
  unfold reject, bind, res_status, res_json; simpl; rewrite Hs; reflexivity.
Qed.

(** Step 3, failure: the response is chosen by the name of the error. *)
Lemma gate_classifies next (w : World S) tok name msg :
  sent w = None ->
  credential (req w) = Some tok ->
  jwt_verify E (VStr tok) = inl (JsError name msg) ->
  verifyJwt E next w
    = (emit (EvVerify (VStr tok)) ;;;
       reject (verdict name).1 (verdict name).2) w.
Proof.
  intros Hs Hc Hv. unfold credential in Hc.
  destruct (authorization (req w)) as [h|] eqn:Hh; [|discriminate].
  unfold verifyJwt, try_catch, bind at 1, get_req. rewrite Hh. simpl.
  destruct (String.eqb_spec h "") as [->|Hne]; [discriminate|].
  rewrite Hc. unfold verify, bind, emit, lift. rewrite Hv. simpl.
  unfold gate_catch, err_name, bind, ret, is_str, verdict.
  destruct (String.eqb name "TokenExpiredError"); [reflexivity|].
  destruct (String.eqb name "JsonWebTokenError"); reflexivity.
Qed.

(** The three answers to a failed verification: 401 'JWT expired' for a
    [TokenExpiredError], 401 'Invalid JWT token' for a [JsonWebTokenError],
    500 'Internal Server Error' for an error of any other name. *)
Lemma gate_answers_failed_verification next (w : World S) tok name msg :
  sent w = None ->
  credential (req w) = Some tok ->
  jwt_verify E (VStr tok) = inl (JsError name msg) ->
  (verifyJwt E next w).1 = Ret tt /\
  sent (verifyJwt E next w).2
    = Some (error_response (verdict name).1 (verdict name).2) /\
  user (req (verifyJwt E next w).2) = user (req w).
Proof.
  intros Hs Hc Hv. rewrite (gate_classifies next w tok name msg Hs Hc Hv).
  unfold bind, emit, reject, res_status, res_json. simpl. rewrite Hs.
  repeat split.
Qed.

(** Step 3, success: the claims become [req.user] and [next] is called
    inside the gate's [try]. *)
Lemma gate_verified next (w : World S) tok claims :
  credential (req w) = Some tok ->
  jwt_verify E (VStr tok) = inr claims ->
  verifyJwt E next w
    = try_catch (emit (EvVerify (VStr tok)) ;;; set_user claims ;;; next)
        gate_catch w.
Proof.
  intros Hc Hv. unfold credential in Hc.
  destruct (authorization (req w)) as [h|] eqn:Hh; [|discriminate].
  unfold verifyJwt, try_catch, bind at 1, get_req. rewrite Hh. simpl.
  destruct (String.eqb_spec h "") as [->|Hne]; [discriminate|].
  rewrite Hc. unfold verify, bind, emit, lift. rewrite Hv. reflexivity.
Qed.

(** Without verified claims the rest of the chain is not run: the gate
    does the same whatever follows it. *)
Lemma gate_unverified next next' (w : World S) :
  verified_claims E (req w) = None ->
  verifyJwt E next w = verifyJwt E next' w.
Proof.
  unfold verified_claims, credential. intros Hv.
  unfold verifyJwt, try_catch, bind, get_req. cbv beta.
  destruct (authorization (req w)) as [h|]; [|reflexivity].
  destruct (String.eqb h ""); [reflexivity|].
  destruct (bearer_token h) as [tok|]; [|reflexivity].
  unfold verify, bind, emit, lift.
  destruct (jwt_verify E (VStr tok)); [reflexivity|discriminate].
Qed.
End Gate.

(** ** Before and after the gate *)

Section Cut.
Context {S : Type}.
Variable E : Env S.

Lemma bind_cong {A B} (m : M S A) (k1 k2 : A -> M S B) (w : World S) :
  (forall a w', m w = (Ret a, w') -> k1 a w' = k2 a w') ->
  bind m k1 w = bind m k2 w.
Proof.
  intros H. unfold bind. destruct (m w) as [[a|e] w']; [|reflexivity].
  apply H. reflexivity.
Qed.

Lemma try_catch_cong {A} (m1 m2 : M S A) (h : Thrown -> M S A) (w : World S) :
  m1 w = m2 w -> try_catch m1 h w = try_catch m2 h w.
Proof. intros H. unfold try_catch. rewrite H. reflexivity. Qed.

Lemma lease_passes_header : passes_header (lease E).
Proof.
  intros next1 next2 w Hn. unfold lease.
  apply try_catch_cong.
  apply bind_cong. intros c w0 H0.
  assert (A0 : authorization (req w0) = authorization (req w)).
  { unfold pool_getConnection in H0. destruct (idle w); inversion H0; reflexivity. }
  apply bind_cong. intros [] w1 H1.
  assert (A1 : authorization (req w1) = authorization (req w)).
  { inversion H1. simpl. exact A0. }
  apply bind_cong. intros v2 w2 H2.
  destruct (tame_db_query (fun _ => True) (fun _ _ => I) E sql_mode None w1)
    as (_ & _ & _ & _ & _ & _ & A2).
  rewrite H2 in A2. simpl in A2.
  apply bind_cong. intros v3 w3 H3.
  destruct (tame_db_query (fun _ => True) (fun _ _ => I) E sql_time_zone None w2)
    as (_ & _ & _ & _ & _ & _ & A3).
  rewrite H3 in A3. simpl in A3.
  unfold bind. rewrite (Hn w3) by congruence. reflexivity.
Qed.

(** When the gate ignores what follows it for requests with the header
    [a], so does the whole server. *)
Lemma dispatch_cut (a : option string) (layers : list (Layer S)) :
  Forall layer_passes_header (before_gate layers) ->
  (forall l next next' w, l ∈ layers -> is_gate l = true ->
     authorization (req w) = a ->
     match l with
     | Use _ mw => mw next w = mw next' w
     | Route _ _ _ _ => False
     end) ->
  forall w, authorization (req w) = a ->
    dispatch layers w = dispatch (up_to_gate layers) w.
Proof.
  induction layers as [|l rest IH]; intros Hpre Hgate w Hw; [reflexivity|].
  simpl in Hpre |- *. destruct (is_gate l) eqn:Hl.
  - specialize (Hgate l). destruct l as [label mw | label m pat h].
    + simpl. unfold bind, emit.
      apply Hgate; auto. left.
    + exfalso.
      apply (Hgate (ret tt) (ret tt) w); auto. left.
  - apply Forall_cons in Hpre as [Hl' Hpre].
    assert (IH' : forall w', authorization (req w') = a ->
              dispatch rest w' = dispatch (up_to_gate rest) w').
    { apply IH; auto. intros l0 n n' w0 Hin. apply Hgate. right. exact Hin. }
    destruct l as [label mw | label m pat h]; simpl.
    + unfold bind, emit. apply Hl'. simpl. intros w' Hw'.
      apply IH'. congruence.
    + unfold bind, get_req.
      destruct (route_matches m pat (req w)); [reflexivity|].
      apply IH', Hw.
Qed.
End Cut.

Lemma not_entering_library labels e : library_event e -> not_entering labels e.
Proof. destruct e; simpl; intros H; try exact I; destruct H. Qed.

Ltac not_in_list :=
  unfold protected_routes, Entries.app; simpl;
  rewrite ?not_elem_of_cons; split_and?;
  first [discriminate | apply not_elem_of_nil].

Section Protected.
Context {S : Type}.
Variable E : Env S.

Lemma lease_emits (P : Event -> Prop) next (w : World S) :
  (forall e, library_event e -> P e) ->
  (forall e, pool_event e -> P e) ->
  tame P next ->
  exists evs, trace (lease E next w).2 = trace w ++ evs /\ Forall P evs.
Proof.
  intros P_library P_pool Hnext. destruct (idle w) as [|c rest] eqn:Hidle.
  - unfold lease, try_catch, bind at 1, pool_getConnection. rewrite Hidle.
    unfold bind, get_req. destruct (db (req w)) as [c0|]; simpl.
    + exists [EvRelease c0]. split; [reflexivity|].
      constructor; [apply P_pool; exact I|constructor].
    + exists []. rewrite app_nil_r. split; [reflexivity|constructor].
  - destruct (lease_paths P P_library E next w c rest Hnext Hidle)
      as (evs & T & Q & _).
    exists (EvAcquire c :: evs ++ [EvRelease c]). split; [exact T|].
    constructor; [apply P_pool; exact I|].
    apply Forall_app. split; [exact Q|].
    constructor; [apply P_pool; exact I|constructor].
Qed.

Lemma verified_claims_header (r r' : Req) :
  authorization r' = authorization r ->
  verified_claims E r' = verified_claims E r.
Proof. unfold verified_claims, credential. intros ->. reflexivity. Qed.

(** In part_000, a request without verified claims gets from the server
    what it would get were nothing registered after the gate. *)
Lemma entries_cut (w : World S) :
  verified_claims E (req w) = None ->
  dispatch (Entries.app E) w = dispatch (up_to_gate (Entries.app E)) w.
Proof.
  intros Hv. apply (dispatch_cut (authorization (req w))); [| |reflexivity].
  - simpl. repeat constructor. apply lease_passes_header.
  - intros l next next' w' Hin Hg Hw'.
    unfold Entries.app in Hin.
    repeat (apply elem_of_cons in Hin as [->|Hin]; [try discriminate Hg|]).
    + apply gate_unverified.
      rewrite (verified_claims_header (req w) (req w') Hw'). exact Hv.
    + apply elem_of_nil in Hin. destruct Hin.
Qed.

Lemma entries_up_to_gate_quiet (w : World S) :
  exists evs,
    trace (dispatch (up_to_gate (Entries.app E)) w).2 = trace w ++ evs /\
    Forall (not_entering (protected_routes (Entries.app E))) evs.
Proof.
  set (P := not_entering (protected_routes (Entries.app E))).
  assert (PL : forall e, library_event e -> P e)
    by apply not_entering_library.
  assert (PP : forall e, pool_event e -> P e).
  { intros [] H; try destruct H; exact I. }
  assert (Hdown : tame P (dispatch (tail (up_to_gate (Entries.app E))))).
  { apply tame_dispatch. simpl.
    repeat (apply Forall_cons; split; [split|]); try apply Forall_nil; simpl;
      auto using tame_register, tame_login, tame_verifyJwt;
      unfold P; not_in_list. }
  change (dispatch (up_to_gate (Entries.app E)) w)
    with ((emit (EvEnter "lease") ;;;
           lease E (dispatch (tail (up_to_gate (Entries.app E))))) w).
  unfold bind, emit.
  match goal with |- context [lease E _ ?w0] => set (w1 := w0) end.
  destruct (lease_emits P (dispatch (tail (up_to_gate (Entries.app E)))) w1
              PL PP Hdown) as (evs & T & Q).
  exists (EvEnter "lease" :: evs). rewrite T. subst w1. simpl.
  split; [rewrite <- app_assoc; reflexivity|].
  constructor; [unfold P; not_in_list|exact Q].
Qed.

(** In index.cjs and part_000, a route registered after the gate is
    entered only for a request whose header carries a credential that
    [jwt.verify] accepts. *)
Lemma protected_route_needs_token (app : list (Layer S)) (w : World S)
    (label : string) (evs : list Event) :
  app = Index.app E \/ app = Entries.app E ->
  trace (dispatch app w).2 = trace w ++ evs ->
  EvEnter label ∈ evs ->
  label ∈ protected_routes app ->
  exists tok claims,
    credential (req w) = Some tok /\ jwt_verify E (VStr tok) = inr claims.
Proof.
  intros [-> | ->] Ht Hin Hl.
  - simpl in Hl. apply elem_of_nil in Hl. destruct Hl.
  - destruct (verified_claims E (req w)) as [claims|] eqn:Hv.
    + unfold verified_claims in Hv.
      destruct (credential (req w)) as [tok|]; [|discriminate].
      destruct (jwt_verify E (VStr tok)) as [|c] eqn:Hj; [discriminate|].
      exists tok, claims. inversion Hv. subst. auto.
    + exfalso. rewrite (entries_cut w Hv) in Ht.
      destruct (entries_up_to_gate_quiet w) as (evs' & T & Q).
      rewrite T in Ht. apply app_inv_head in Ht. subst evs'.
      rewrite Forall_forall in Q. apply (Q _ Hin), Hl.
Qed.
End Protected.

(** ** What the gate lets through *)

(** C2.  Routes are registered after the gate in part_000 only; index.cjs
    and part_001 register none.  The gate of index.cjs and part_000, for
    a request not yet answered: without a header, or with a header from
    which no credential is read, it answers 401 and does not call
    [next]; with a credential that [jwt.verify] rejects it answers by
    the name of the error (401, 401 or 500) and does not call [next];
    whenever the request carries no verified claims it does the same
    whatever is registered after it.  Only with a credential that
    [jwt.verify] accepts does it call [next], and then in a world whose
    [req.user] is the claims returned.  Hence, in every file, a route
    registered after the gate is entered only for a request with a
    verified credential. *)
Theorem gate_admits_only_verified {S} (E : Env S) (next : M S unit) (w : World S) :
  sent w = None ->
  protected_routes (Index.app E) = [] /\
  protected_routes (Draft.app E) = [] /\
  (authorization (req w) = None \/ authorization (req w) = Some "" ->
   verifyJwt E next w
     = reject 401 "Invalid authorization, no authorization header" w) /\
  (forall h, authorization (req w) = Some h -> h ≠ "" -> bearer_token h = None ->
   verifyJwt E next w
     = reject 401 "Invalid authorization, invalid authorization scheme" w) /\
  (forall tok name msg,
     credential (req w) = Some tok ->
     jwt_verify E (VStr tok) = inl (JsError name msg) ->
     verifyJwt E next w
       = (emit (EvVerify (VStr tok)) ;;;
          reject (verdict name).1 (verdict name).2) w) /\
  (verified_claims E (req w) = None ->
   forall next', verifyJwt E next w = verifyJwt E next' w) /\
  (forall tok claims,
     credential (req w) = Some tok ->
     jwt_verify E (VStr tok) = inr claims ->
     verifyJwt E next w = try_catch next gate_catch (admitted w tok claims) /\
     user (req (admitted w tok claims)) = claims) /\
  (forall rev label evs,
     trace (dispatch (server E rev) w).2 = trace w ++ evs ->
     EvEnter label ∈ evs ->
     label ∈ protected_routes (server E rev) ->
     exists tok claims,
       credential (req w) = Some tok /\ jwt_verify E (VStr tok) = inr claims).
Proof.
  intros Hs. split_and!; try reflexivity.
  - apply gate_no_header, Hs.
  - intros h. apply gate_bad_scheme, Hs.
  - intros tok name msg. apply gate_classifies, Hs.
  - intros Hv next'. apply gate_unverified, Hv.
  - intros tok claims Hc Hv. split; [|reflexivity].
    rewrite (gate_verified E next w tok claims Hc Hv).
    unfold try_catch, bind, emit, set_user, get_req, set_req. reflexivity.
  - intros rev label evs Ht Hin Hl. destruct rev.
    + apply (protected_route_needs_token E (Index.app E) w label evs); auto.
    + apply (protected_route_needs_token E (Entries.app E) w label evs); auto.
    + simpl in Hl. apply elem_of_nil in Hl. destruct Hl.
Qed.

Lemma gate_admits_only_verified_witness :
  protected_routes (Index.app Sample.env) = [] /\
  protected_routes (Draft.app Sample.env) = [] /\
  (authorization (req (request_with_token "old.jwt")) = None \/
   authorization (req (request_with_token "old.jwt")) = Some "" ->
   verifyJwt Sample.env (ret tt) (request_with_token "old.jwt")
     = reject 401 "Invalid authorization, no authorization header"
         (request_with_token "old.jwt")) /\
  (forall h, authorization (req (request_with_token "old.jwt")) = Some h ->
   h ≠ "" -> bearer_token h = None ->
   verifyJwt Sample.env (ret tt) (request_with_token "old.jwt")
     = reject 401 "Invalid authorization, invalid authorization scheme"
         (request_with_token "old.jwt")) /\
  (forall tok name msg,
     credential (req (request_with_token "old.jwt")) = Some tok ->
     jwt_verify Sample.env (VStr tok) = inl (JsError name msg) ->
     verifyJwt Sample.env (ret tt) (request_with_token "old.jwt")
       = (emit (EvVerify (VStr tok)) ;;;
          reject (verdict name).1 (verdict name).2) (request_with_token "old.jwt")) /\
  (verified_claims Sample.env (req (request_with_token "old.jwt")) = None ->
   forall next',
     verifyJwt Sample.env (ret tt) (request_with_token "old.jwt")
       = verifyJwt Sample.env next' (request_with_token "old.jwt")) /\
  (forall tok claims,
     credential (req (request_with_token "old.jwt")) = Some tok ->
     jwt_verify Sample.env (VStr tok) = inr claims ->
     verifyJwt Sample.env (ret tt) (request_with_token "old.jwt")
       = try_catch (ret tt) gate_catch
           (admitted (request_with_token "old.jwt") tok claims) /\
     user (req (admitted (request_with_token "old.jwt") tok claims)) = claims) /\
  (forall rev label evs,
     trace (dispatch (server Sample.env rev) (request_with_token "old.jwt")).2
       = trace (request_with_token "old.jwt") ++ evs ->
     EvEnter label ∈ evs ->
     label ∈ protected_routes (server Sample.env rev) ->
     exists tok claims,
       credential (req (request_with_token "old.jwt")) = Some tok /\
       jwt_verify Sample.env (VStr tok) = inr claims).
Proof.
  apply (gate_admits_only_verified Sample.env (ret tt) (request_with_token "old.jwt")).
  reflexivity.
Defined.

(** An expired token at part_000: the gate answers 401 'JWT expired',
    no route after it is entered, and the store is untouched. *)
Example expired_token_is_turned_away :
  sent (dispatch (Entries.app Sample.env) (request_with_token "old.jwt")).2
    = Some (error_response 401 "JWT expired") /\
  trace (dispatch (Entries.app Sample.env) (request_with_token "old.jwt")).2
    = [EvEnter "lease"; EvAcquire 0%nat; EvQuery sql_mode [];
       EvQuery sql_time_zone []; EvEnter "verifyJwt"; EvVerify (VStr "old.jwt");
       EvRelease 0%nat] /\
  store (dispatch (Entries.app Sample.env) (request_with_token "old.jwt")).2
    = Sample.db0.
Proof. split_and!; vm_compute; reflexivity. Qed.

(** ** Registration *)

Lemma bound_insert_user (email hashed username : JsVal) :
  bind_named sql_insert_user
    (Some (obj [("email", email); ("hashedPassword", hashed); ("username", username)]))
  = inr [email; hashed; username].
Proof. reflexivity. Qed.

Lemma bound_draft_insert_user (username hashed : JsVal) :
  bind_named Draft.sql_insert_user
    (Some (obj [("username", username); ("hashedPassword", hashed)]))
  = inr [username; hashed].
Proof. reflexivity. Qed.

(** Running a handler by hand: unfold the monad and the primitives. *)
Ltac exec_in H :=
  cbv beta iota zeta delta
    [try_catch bind ret throw get_req set_req emit set_db set_user set_params
     set_body set_reqStatus res_status res_json get_prop first_of nullish lift
     hash compare sign verify reject fst snd] in H.

Ltac exec :=
  cbv beta iota zeta delta
    [try_catch bind ret throw get_req set_req emit set_db set_user set_params
     set_body set_reqStatus res_status res_json get_prop first_of nullish lift
     hash compare sign verify reject fst snd].

Section Register.
Context {S : Type}.
Variable E : Env S.

(** A statement sent over a leased connection: one trace event, then the
    answer of the engine. *)
Lemma db_query_run sql values vals (w : World S) c :
  db (req w) = Some c ->
  bind_named sql values = inr vals ->
  db_query E sql values w =
    (match (db_exec E (store w) sql vals).1 with
     | inl e => Thr e
     | inr v => Ret v
     end,
     mkWorld (req w) (statusCode w) (sent w) (idle w) (leased w)
       (db_exec E (store w) sql vals).2 (trace w ++ [EvQuery sql vals])).
Proof.
  intros Hdb Hbind. unfold db_query, bind at 1, get_req. rewrite Hdb, Hbind.
  unfold bind, emit. simpl.
  destruct (db_exec E (store w) sql vals) as [[e|v] s']; reflexivity.
Qed.

Lemma db_query_unleased sql values (w : World S) :
  db (req w) = None ->
  exists e, db_query E sql values w = (Thr e, w).
Proof.
  intros Hdb. unfold db_query, bind at 1, get_req. rewrite Hdb.
  eexists. reflexivity.
Qed.

Lemma register_success (w : World S) (b o : gmap string JsVal) (t : string) (st : Z) :
  body (req w) = VObj b ->
  sent w = None ->
  sent (register E w).2 = Some (mkResponse st (VObj o)) ->
  o !! "jwt" = Some (VStr t) ->
  exists hashed user s',
    bcrypt_hash E (default VUndef (b !! "password")) 10 = inr hashed /\
    db_exec E (store w) sql_insert_user
      [default VUndef (b !! "email"); VStr hashed; default VUndef (b !! "username")]
      = (inr user, s') /\
    jwt_sign E (VObj (b ∪ {[ "UserID" := prop user "insertId" ]})) = inr t.
Proof.
  intros Hb Hs Hsent Ho.
  unfold register in Hsent. exec_in Hsent. rewrite Hb in Hsent. exec_in Hsent.
  unfold prop in Hsent at 1 2 3.
  destruct (bcrypt_hash E (default VUndef (b !! "password")) 10)
    as [e|hashed] eqn:Hh.
  { rewrite Hs in Hsent. simpl in Hsent. inversion Hsent; subst.
    discriminate Ho. }
  destruct (db (req w)) as [c|] eqn:Hdb.
  2: { destruct (db_query_unleased sql_insert_user
                   (Some (obj [("email", default VUndef (b !! "email"));
                               ("hashedPassword", VStr hashed);
                               ("username", default VUndef (b !! "username"))])) w Hdb)
         as (e & Hq).
       rewrite Hq in Hsent. rewrite Hs in Hsent. simpl in Hsent.
       inversion Hsent; subst. discriminate Ho. }
  rewrite (db_query_run _ _ _ w c Hdb (bound_insert_user _ _ _)) in Hsent.
  destruct (db_exec E (store w) sql_insert_user
              [default VUndef (b !! "email"); VStr hashed;
               default VUndef (b !! "username")]) as [[e|user] s'] eqn:Hx;
    simpl in Hsent.
  { rewrite Hs in Hsent. simpl in Hsent. inversion Hsent; subst.
    discriminate Ho. }
  destruct (match user with VUndef | VNull => true | _ => false end) eqn:Hn.
  { simpl in Hsent. rewrite Hs in Hsent. simpl in Hsent.
    inversion Hsent; subst. discriminate Ho. }
  simpl in Hsent. unfold spread_over, own_props in Hsent.
  destruct (jwt_sign E (VObj (b ∪ {["UserID" := prop user "insertId"]})))
    as [e|t'] eqn:Hj; simpl in Hsent.
  { rewrite Hs in Hsent. simpl in Hsent. inversion Hsent; subst.
    discriminate Ho. }
  rewrite Hs in Hsent. simpl in Hsent. inversion Hsent; subst.
  assert (t' = t) as -> by (vm_compute in Ho; congruence).
  exists hashed, user, s'. auto.
Qed.

Lemma draft_register_success (w : World S) (b o : gmap string JsVal) (t : string) (st : Z) :
  body (req w) = VObj b ->
  sent w = None ->
  sent (Draft.register E w).2 = Some (mkResponse st (VObj o)) ->
  o !! "jwt" = Some (VStr t) ->
  exists hashed user s',
    bcrypt_hash E (default VUndef (b !! "password")) 10 = inr hashed /\
    db_exec E (store w) Draft.sql_insert_user
      [default VUndef (b !! "username"); VStr hashed] = (inr user, s') /\
    jwt_sign E (VObj (b ∪ {[ "userId" := prop user "insertId" ]})) = inr t.
Proof.
  intros Hb Hs Hsent Ho.
  unfold Draft.register in Hsent. exec_in Hsent. rewrite Hb in Hsent.
  exec_in Hsent. unfold prop in Hsent at 1 2.
  destruct (bcrypt_hash E (default VUndef (b !! "password")) 10)
    as [e|hashed] eqn:Hh.
  { rewrite Hs in Hsent. simpl in Hsent. inversion Hsent; subst.
    discriminate Ho. }
  destruct (db (req w)) as [c|] eqn:Hdb.
  2: { destruct (db_query_unleased Draft.sql_insert_user
                   (Some (obj [("username", default VUndef (b !! "username"));
                               ("hashedPassword", VStr hashed)])) w Hdb)
         as (e & Hq).
       rewrite Hq in Hsent. rewrite Hs in Hsent. simpl in Hsent.
       inversion Hsent; subst. discriminate Ho. }
  rewrite (db_query_run _ _ _ w c Hdb (bound_draft_insert_user _ _)) in Hsent.
  destruct (db_exec E (store w) Draft.sql_insert_user
              [default VUndef (b !! "username"); VStr hashed])
    as [[e|user] s'] eqn:Hx; simpl in Hsent.
  { rewrite Hs in Hsent. simpl in Hsent. inversion Hsent; subst.
    discriminate Ho. }
  destruct (match user with VUndef | VNull => true | _ => false end) eqn:Hn.
  { simpl in Hsent. rewrite Hs in Hsent. simpl in Hsent.
    inversion Hsent; subst. discriminate Ho. }
  simpl in Hsent. unfold spread_over, own_props in Hsent.
  destruct (jwt_sign E (VObj (b ∪ {["userId" := prop user "insertId"]})))
    as [e|t'] eqn:Hj; simpl in Hsent.
  { rewrite Hs in Hsent. simpl in Hsent. inversion Hsent; subst.
    discriminate Ho. }
  rewrite Hs in Hsent. simpl in Hsent. inversion Hsent; subst.
  assert (t' = t) as -> by (vm_compute in Ho; congruence).
  exists hashed, user, s'. auto.
Qed.
End Register.

(** C9.  In each file, when [/register] answers with a token, the claims
    that were signed are the request body with the insert id put under
    [UserID] ([userId] in part_001) unless the body has that key itself:
    every field of the body is in the claims with the value the client
    sent, the [password] among them, which is the value that was handed
    to [bcrypt.hash]. *)
Theorem register_token_carries_body {S} (E : Env S) (rev : Revision)
    (w : World S) (b o : gmap string JsVal) (t : string) (st : Z) :
  body (req w) = VObj b ->
  sent w = None ->
  sent (register_of E rev w).2 = Some (mkResponse st (VObj o)) ->
  o !! "jwt" = Some (VStr t) ->
  exists hashed user s' claims,
    bcrypt_hash E (default VUndef (b !! "password")) 10 = inr hashed /\
    db_exec E (store w) (register_insert rev b hashed).1
      (register_insert rev b hashed).2 = (inr user, s') /\
    claims = b ∪ {[ id_key rev := prop user "insertId" ]} /\
    jwt_sign E (VObj claims) = inr t /\
    (forall k v, b !! k = Some v -> claims !! k = Some v) /\
    claims !! "password" = b !! "password" /\
    (b !! id_key rev = None -> claims !! id_key rev = Some (prop user "insertId")).
Proof.
  intros Hb Hs Hsent Ho.
  assert (H : exists hashed user s',
             bcrypt_hash E (default VUndef (b !! "password")) 10 = inr hashed /\
             db_exec E (store w) (register_insert rev b hashed).1
               (register_insert rev b hashed).2 = (inr user, s') /\
             jwt_sign E (VObj (b ∪ {[ id_key rev := prop user "insertId" ]})) = inr t).
  { destruct rev; simpl in *;
      eauto using register_success, draft_register_success. }
  destruct H as (hashed & user & s' & Hh & Hx & Hj).
  exists hashed, user, s', (b ∪ {[ id_key rev := prop user "insertId" ]}).
  split_and!; auto.
  - intros k v Hk. apply lookup_union_Some_l. exact Hk.
  - destruct (b !! "password") as [p|] eqn:Hp.
    + apply lookup_union_Some_l. exact Hp.
    + apply lookup_union_None. split; [exact Hp|].
      apply lookup_singleton_ne. destruct rev; discriminate.
  - intros Hk. rewrite lookup_union_r by exact Hk.
    apply lookup_singleton_eq.
Qed.

Lemma register_token_carries_body_witness :
  exists hashed user s' claims,
    bcrypt_hash Sample.env (VStr "s3cret") 10 = inr hashed /\
    db_exec Sample.env Sample.db0 Draft.sql_insert_user
      [VStr "carol"; VStr hashed] = (inr user, s') /\
    claims = obj [("username", VStr "carol"); ("password", VStr "s3cret")]
               ∪ {[ "userId" := prop user "insertId" ]} /\
    jwt_sign Sample.env (VObj claims) = inr "signed.carol" /\
    (forall k v,
        obj [("username", VStr "carol"); ("password", VStr "s3cret")] !! k = Some v ->
        claims !! k = Some v) /\
    claims !! "password" = Some (VStr "s3cret") /\
    (obj [("username", VStr "carol"); ("password", VStr "s3cret")] !! "userId" = None ->
     claims !! "userId" = Some (prop user "insertId")).
Proof.
  apply (register_token_carries_body Sample.env part_001 carol_registers
           (obj [("username", VStr "carol"); ("password", VStr "s3cret")])
           (obj [("jwt", VStr "signed.carol")]) "signed.carol" 200);
    reflexivity.
Defined.

(** ** POST /car *)

Lemma bound_insert_car (make_id model user_id deleted_flag : JsVal) :
  bind_named sql_insert_car (Some (car_params make_id model user_id deleted_flag))
  = inr [VUndef; model; user_id; deleted_flag].
Proof. reflexivity. Qed.

(** C10.  The insert of [POST /car] names the placeholder [:makeId], and
    the parameter object has the key [make_id] and no key [makeId].  So,
    whatever the body, the one statement the handler sends binds
    [undefined] (NULL) in the place of [make_id]: the values bound are
    [undefined] and the body's [model], [user_id] and [deleted_flag], and
    the [make_id] of the body is not among them. *)
Theorem car_post_never_binds_make_id {S} (E : Env S) (w : World S) (c : Conn)
    (b : gmap string JsVal) :
  db (req w) = Some c ->
  body (req w) = VObj b ->
  placeholders sql_insert_car = ["makeId"; "model"; "user_id"; "deleted_flag"] /\
  car_params (default VUndef (b !! "make_id")) (default VUndef (b !! "model"))
    (default VUndef (b !! "user_id")) (default VUndef (b !! "deleted_flag"))
    !! "makeId" = None /\
  trace (car_post E w).2
    = trace w ++ [EvQuery sql_insert_car
                    [VUndef; default VUndef (b !! "model");
                     default VUndef (b !! "user_id");
                     default VUndef (b !! "deleted_flag")]].
Proof.
  intros Hdb Hb. split; [reflexivity|]. split; [reflexivity|].
  unfold car_post. exec. rewrite Hb. exec. unfold prop.
  rewrite (db_query_run E _ _ _ w c Hdb (bound_insert_car _ _ _ _)).
  destruct (db_exec E (store w) sql_insert_car
              [VUndef; default VUndef (b !! "model");
               default VUndef (b !! "user_id");
               default VUndef (b !! "deleted_flag")]) as [[e|insert] s'];
    simpl; [reflexivity|].
  destruct insert; simpl; try reflexivity;
    match goal with |- context [sent ?x] => destruct (sent x) end; reflexivity.
Qed.

Lemma car_post_never_binds_make_id_witness :
  placeholders sql_insert_car = ["makeId"; "model"; "user_id"; "deleted_flag"] /\
  car_params (VNum 5) (VStr "Civic") VUndef VUndef !! "makeId" = None /\
  trace (car_post Sample.env car_request).2
    = [] ++ [EvQuery sql_insert_car [VUndef; VStr "Civic"; VUndef; VUndef]].
Proof.
  apply (car_post_never_binds_make_id Sample.env car_request 0%nat
           (obj [("make_id", VNum 5); ("model", VStr "Civic")]));
    reflexivity.
Defined.

(** With the sample store: the row written for a request with
    [make_id: 5] has NULL in [make_id]. *)
Example car_row_without_make_id :
  Sample.cars (store (car_post Sample.env car_request).2)
  = [Sample.mkCar VNull (VStr "Civic") VNull VNull].
Proof. reflexivity. Qed.

(** ** Entries and their owners (part_000) *)

Lemma bound_update_entry (id title content mood : JsVal) :
  bind_named Entries.sql_update_entry
    (Some (obj [("id", id); ("title", title); ("content", content); ("mood", mood)]))
  = inr [title; content; mood; id].
Proof. reflexivity. Qed.

Lemma bound_select_entries (userId : JsVal) :
  bind_named Entries.sql_select_entries (Some (obj [("userId", userId)]))
  = inr [userId].
Proof. reflexivity. Qed.

Lemma bound_soft_delete (entryId : JsVal) :
  bind_named Entries.sql_soft_delete (Some (obj [("entryId", entryId)]))
  = inr [entryId].
Proof. reflexivity. Qed.

Section Owners.
Context {S : Type}.
Variable E : Env S.

(** [GET /entry_table] selects by the [userId] of the claims. *)
Lemma entry_get_statement (w : World S) c :
  db (req w) = Some c -> nullish (user (req w)) = false ->
  trace (Entries.entry_get E w).2
    = trace w ++ [EvQuery Entries.sql_select_entries [prop (user (req w)) "userId"]].
Proof.
  intros Hdb Hu. unfold Entries.entry_get. exec.
  destruct (user (req w)) as [| | | | | |claims]; try discriminate Hu;
    rewrite (db_query_run E _ _ _ w c Hdb (bound_select_entries _));
    match goal with |- context [db_exec E ?s ?q ?v] =>
      destruct (db_exec E s q v) as [[e|rows] s'] end;
    simpl; try reflexivity; destruct (sent w); reflexivity.
Qed.

(** [PUT /entry_table] selects by the [id] of the body alone: the
    statement is the same whoever [req.user] is. *)
Lemma entry_put_statement (w : World S) c b :
  db (req w) = Some c -> body (req w) = VObj b ->
  trace (Entries.entry_put E w).2
    = trace w ++ [EvQuery Entries.sql_update_entry
                    [default VUndef (b !! "title"); default VUndef (b !! "content");
                     default VUndef (b !! "mood"); default VUndef (b !! "id")]].
Proof.
  intros Hdb Hb. unfold Entries.entry_put. exec. rewrite Hb. exec. unfold prop.
  rewrite (db_query_run E _ _ _ w c Hdb (bound_update_entry _ _ _ _)).
  destruct (db_exec E (store w) Entries.sql_update_entry
              [default VUndef (b !! "title"); default VUndef (b !! "content");
               default VUndef (b !! "mood"); default VUndef (b !! "id")])
    as [[e|rows] s']; simpl; destruct (sent w); reflexivity.
Qed.

(** [DELETE /entry_table/:id] selects by the [id] of the URL alone. *)
Lemma entry_delete_statement (w : World S) c :
  db (req w) = Some c ->
  trace (Entries.entry_delete E w).2
    = trace w ++ [EvQuery Entries.sql_soft_delete
                    [default VUndef (params (req w) !! "id")]].
Proof.
  intros Hdb. unfold Entries.entry_delete. exec.
  rewrite (db_query_run E _ _ _ w c Hdb (bound_soft_delete _)).
  destruct (db_exec E (store w) Entries.sql_soft_delete
              [default VUndef (params (req w) !! "id")])
    as [[e|rows] s']; simpl; [reflexivity|].
  destruct (sent w); reflexivity.
Qed.
End Owners.

(** C3, at the failing input.  In part_000, entry 7 belongs to bob
    (UserID 2).  A [PUT /entry_table] with alice's verified token (userId 1)
    and [id: 7] in the body rewrites bob's entry and is answered 200; her
    [DELETE /entry_table/7] sets its deleted flag. *)
Theorem entries_put_and_delete_cross_owners :
  verified_claims Sample.env (req alice_puts_entry_7)
    = Some (VObj (obj [("userId", VNum 1); ("username", VStr "alice")])) /\
  Sample.entries Sample.db0
    = [Sample.mkEntry 7 2 (VStr "bob's day") (VStr "private") (VStr "calm") 0] /\
  Sample.entries (store (dispatch (Entries.app Sample.env) alice_puts_entry_7).2)
    = [Sample.mkEntry 7 2 (VStr "rewritten") (VStr "by alice") (VStr "smug") 0] /\
  sent (dispatch (Entries.app Sample.env) alice_puts_entry_7).2
    = Some (mkResponse 200 (VObj (obj [("message", VStr "Entry updated successfully")]))) /\
  Sample.entries (store (dispatch (Entries.app Sample.env) alice_deletes_entry_7).2)
    = [Sample.mkEntry 7 2 (VStr "bob's day") (VStr "private") (VStr "calm") 1] /\
  sent (dispatch (Entries.app Sample.env) alice_deletes_entry_7).2
    = Some (mkResponse 200 (VObj (obj [("success", VBool true)]))).
Proof. split_and!; vm_compute; reflexivity. Qed.

(** ** The routes before the gate *)

(** C4 as stated fails: in index.cjs [GET /car] and [POST /car] are
    registered before the gate, and a request without an [Authorization]
    header reaches them: the gate is not entered, the list of cars is
    served, a car is inserted. *)
Lemma car_routes_need_no_token :
  public_routes (Index.app Sample.env) ≠ ["POST /register"; "POST /login"] /\
  authorization (req anonymous_get_car) = None /\
  sent (dispatch (Index.app Sample.env) anonymous_get_car).2
    = Some (mkResponse 200 (VObj (obj [("cars", VArr [])]))) /\
  trace (dispatch (Index.app Sample.env) anonymous_get_car).2
    = [EvEnter "lease"; EvAcquire 0%nat; EvQuery sql_mode [];
       EvQuery sql_time_zone []; EvEnter "GET /car";
       EvQuery "SELECT * FROM car;" []; EvRelease 0%nat] /\
  authorization (req anonymous_post_car) = None /\
  Sample.cars (store (dispatch (Index.app Sample.env) anonymous_post_car).2)
    = [Sample.mkCar VNull (VStr "Civic") VNull VNull].
Proof.
  split; [discriminate|]. split_and!; vm_compute; reflexivity.
Qed.

(** C4, amended.  The routes registered before the gate are [/register]
    and [/login] and, in index.cjs and part_001, the three [/car] routes
    ([/register], [/log-in] and the [/car] routes in part_001).  In
    index.cjs and part_000 a route registered after the gate is entered
    only for a request whose [Authorization] header carries a credential
    that [jwt.verify] accepts. *)
Theorem routes_before_the_gate {S} (E : Env S) :
  public_routes (Index.app E)
    = ["DELETE /car/:id"; "GET /car"; "POST /car"; "POST /register"; "POST /login"] /\
  public_routes (Entries.app E) = ["POST /register"; "POST /login"] /\
  public_routes (Draft.app E)
    = ["DELETE /car/:id"; "GET /car"; "POST /car"; "POST /register"; "POST /log-in"] /\
  protected_routes (Entries.app E)
    = ["POST /entry_table"; "PUT /entry_table"; "GET /entry_table";
       "DELETE /entry_table/:id"; "GET /user_table"] /\
  forall (app : list (Layer S)) (w : World S) (label : string) (evs : list Event),
    app = Index.app E \/ app = Entries.app E ->
    trace (dispatch app w).2 = trace w ++ evs ->
    EvEnter label ∈ evs ->
    label ∈ protected_routes app ->
    exists tok claims,
      credential (req w) = Some tok /\ jwt_verify E (VStr tok) = inr claims.
Proof.
  split_and!; try reflexivity.
  apply protected_route_needs_token.
Qed.

Lemma routes_before_the_gate_witness :
  exists tok claims,
    credential (req bob_reads_entries) = Some tok /\
    jwt_verify Sample.env (VStr tok) = inr claims.
Proof.
  apply (proj2 (proj2 (proj2 (proj2 (routes_before_the_gate Sample.env))))
           (Entries.app Sample.env) bob_reads_entries "GET /entry_table"
           (trace (dispatch (Entries.app Sample.env) bob_reads_entries).2)).
  - right. reflexivity.
  - reflexivity.
  - apply list_elem_of_In. vm_compute. tauto.
  - apply list_elem_of_In. vm_compute. tauto.
Defined.

(** ** Login *)

Lemma bound_select_user (username : JsVal) :
  bind_named sql_select_user (Some (obj [("username", username)])) = inr [username].
Proof. reflexivity. Qed.

Lemma prop_obj (b : gmap string JsVal) (k : string) :
  prop (VObj b) k = default VUndef (b !! k).
Proof. reflexivity. Qed.

Section Login.
Context {S : Type}.
Variable E : Env S.
Local Arguments prop : simpl never.
Local Arguments to_js_string : simpl never.

Lemma login_outcomes (w : World S) c b rows s' :
  db (req w) = Some c ->
  sent w = None ->
  body (req w) = VObj b ->
  db_exec E (store w) sql_select_user [default VUndef (b !! "username")]
    = (inr (VArr rows), s') ->
  sent (login E w).2
    = Some (login_answer E (statusCode w) (default VUndef (b !! "password")) rows).
Proof.
  intros Hdb Hs Hb Hx. unfold login. exec. rewrite Hb. exec. rewrite !prop_obj.
  rewrite (db_query_run E _ _ _ w c Hdb (bound_select_user _)). rewrite Hx.
  unfold login_answer, login_claims, not_found, wrong_password, login_failed,
    logged_in.
  simpl. destruct rows as [|row rows]; simpl.
  { rewrite Hs. reflexivity. }
  destruct (truthy row) eqn:Ht; simpl.
  2: { rewrite Hs. reflexivity. }
  assert (Hn : nullish row = false) by (destruct row; simpl in *; congruence).
  unfold nullish in Hn. rewrite Hn.
  match goal with |- context [bcrypt_compare E ?x ?y] =>
    destruct (bcrypt_compare E x y) as [e|[|]] end; simpl.
  - rewrite Hs. reflexivity.
  - match goal with |- context [jwt_sign E ?x] =>
      destruct (jwt_sign E x) as [e|t] end; simpl; rewrite Hs; reflexivity.
  - rewrite Hs. reflexivity.
Qed.
End Login.

(** C6, at the failing input.  In part_001, [/log-in] with alice's name and
    a wrong password is answered with the text 'Password not found' and
    status 200, and an unknown name with 'Username not found' and status
    200; [/login] of index.cjs answers the same requests 401 and 404. *)
Theorem draft_login_answers_200 :
  sent (dispatch (Draft.app Sample.env) (login_request "log-in" "alice" "guess")).2
    = Some (mkResponse 200 (VStr "Password not found")) /\
  sent (dispatch (Draft.app Sample.env) (login_request "log-in" "nobody" "guess")).2
    = Some (mkResponse 200 (VStr "Username not found")) /\
  sent (dispatch (Index.app Sample.env) (login_request "login" "alice" "guess")).2
    = Some wrong_password /\
  sent (dispatch (Index.app Sample.env) (login_request "login" "nobody" "guess")).2
    = Some not_found.
Proof. split_and!; vm_compute; reflexivity. Qed.

(** ** The gate of part_001 *)

(** The world in which the gate of part_001 calls [next] after a failed
    verification with the message [msg]. *)
Lemma draft_gate_falls_through {S} (E : Env S) (next : M S unit) (w : World S)
    (h tok name msg : string) (more : list string) :
  authorization (req w) = Some h ->
  split_on space h = "Bearer" :: tok :: more ->
  jwt_verify E (VStr tok) = inl (JsError name msg) ->
  toUpperCase msg = "JWT EXPIRED" \/ toUpperCase msg = "INVALID TOKEN" ->
  Draft.verifyJwt E next w
    = next (mkWorld
              (mkReq (method (req w)) (path (req w)) (authorization (req w))
                 (VStr msg) (params (req w)) (db (req w)) (user (req w)) (VNum 500))
              (statusCode w) (sent w) (idle w) (leased w) (store w)
              (trace w ++ [EvVerify (VStr tok)] ++ [EvEmit "jwt-error"])).
Proof.
  intros Hh Hsplit Hv Hmsg.
  assert (Hne : truthy (VStr h) = true).
  { destruct h; [discriminate Hsplit|reflexivity]. }
  assert (Hm : truthy (VStr msg) = true).
  { destruct msg; [destruct Hmsg; discriminate|reflexivity]. }
  unfold Draft.verifyJwt, Draft.upper_is, Draft.err_status, err_message.
  exec. rewrite Hh. cbn [from_option]. rewrite Hne. cbn [negb].
  rewrite Hsplit. cbn [lookup list_lookup from_option is_str String.eqb Ascii.eqb Bool.eqb negb].
  rewrite Hv. rewrite Hm.
  destruct Hmsg as [Hx | Hx]; rewrite Hx; simpl;
    rewrite <- ?app_assoc, ?Hh; reflexivity.
Qed.

(** C5, at the failing input.  The server of part_001 answers an expired
    token with Express's 404 (the request went past the gate) and throws
    the message of an invalid signature as a string, answering nothing;
    index.cjs answers the same requests 401 'JWT expired' and 401
    'Invalid JWT token'. *)
Theorem draft_gate_misclassifies :
  jwt_verify Sample.env (VStr "old.jwt")
    = inl (JsError "TokenExpiredError" "jwt expired") /\
  sent (dispatch (Draft.app Sample.env) (request_with_token "old.jwt")).2
    = Some (mkResponse 404 (VStr "Not Found")) /\
  jwt_verify Sample.env (VStr "forged.jwt")
    = inl (JsError "JsonWebTokenError" "invalid signature") /\
  dispatch (Draft.app Sample.env) (request_with_token "forged.jwt")
    = (Thr (JsThrow (VStr "invalid signature")),
       (dispatch (Draft.app Sample.env) (request_with_token "forged.jwt")).2) /\
  sent (dispatch (Draft.app Sample.env) (request_with_token "forged.jwt")).2 = None /\
  sent (dispatch (Index.app Sample.env) (request_with_token "old.jwt")).2
    = Some (error_response 401 "JWT expired") /\
  sent (dispatch (Index.app Sample.env) (request_with_token "forged.jwt")).2
    = Some (error_response 401 "Invalid JWT token").
Proof. split_and!; vm_compute; reflexivity. Qed.

(** ** The shape of the header *)

Lemma split_on_nonempty c s : split_on c s ≠ [].
Proof.
  destruct s as [|a s]; simpl; [discriminate|].
  destruct (Ascii.eqb a c); [discriminate|].
  destruct (split_on c s); discriminate.
Qed.

Lemma split_on_plain c s : has_char c s = false -> split_on c s = [s].
Proof.
  induction s as [|a s IH]; simpl; intros H; [reflexivity|].
  apply orb_false_iff in H as [Ha Hs]. rewrite Ha, (IH Hs). reflexivity.
Qed.

Lemma split_on_sep c x s :
  has_char c x = false -> split_on c (x +:+ String c s) = x :: split_on c s.
Proof.
  induction x as [|a x IH]; simpl; intros H.
  - rewrite Ascii.eqb_refl. reflexivity.
  - apply orb_false_iff in H as [Ha Hx]. rewrite Ha, (IH Hx). reflexivity.
Qed.

Lemma split_on_inv c s x xs :
  split_on c s = x :: xs ->
  has_char c x = false /\
  ((xs = [] /\ s = x) \/
   (exists s', s = x +:+ String c s' /\ split_on c s' = xs)).
Proof.
  revert x xs. induction s as [|a s IH]; simpl; intros x xs H.
  - inversion H; subst. split; [reflexivity|]. left. auto.
  - destruct (Ascii.eqb a c) eqn:Ha.
    + inversion H; subst. split; [reflexivity|]. right.
      apply Ascii.eqb_eq in Ha. subst. exists s. auto.
    + destruct (split_on c s) as [|y ys] eqn:Hs; [inversion H; subst|].
      * exfalso. exact (split_on_nonempty c s Hs).
      * inversion H; subst. destruct (IH y xs eq_refl) as [Hy Hc].
        split; [simpl; rewrite Ha; exact Hy|].
        destruct Hc as [[-> ->] | (s' & -> & Hs')].
        -- left. auto.
        -- right. exists s'. auto.
Qed.

Lemma bearer_token_shape h tok : bearer_token h = Some tok <-> two_segments h tok.
Proof.
  unfold bearer_token, two_segments. split.
  - destruct (split_on space h) as [|scheme [|jwtToken rest]] eqn:Hh;
      try discriminate.
    destruct (String.eqb_spec scheme ""); [discriminate|].
    destruct (String.eqb_spec jwtToken ""); [discriminate|].
    destruct (String.eqb_spec scheme "Bearer"); [|discriminate].
    simpl. intros [= <-]. subst scheme.
    apply split_on_inv in Hh as [_ [[? _] | (s' & -> & Hs')]]; [discriminate|].
    apply split_on_inv in Hs' as [Hc [[-> ->] | (s'' & -> & _)]].
    + split_and!; auto.
    + split_and!; auto. right. exists s''. reflexivity.
  - intros (Hne & Hc & [-> | (more & ->)]).
    + change ("Bearer " +:+ tok) with ("Bearer" +:+ String space tok).
      rewrite split_on_sep by reflexivity. rewrite (split_on_plain _ _ Hc).
      simpl. destruct (String.eqb_spec tok ""); [contradiction|reflexivity].
    + change ("Bearer " +:+ tok +:+ " " +:+ more)
        with ("Bearer" +:+ String space (tok +:+ String space more)).
      rewrite split_on_sep by reflexivity. rewrite (split_on_sep _ _ _ Hc).
      simpl. destruct (String.eqb_spec tok ""); [contradiction|reflexivity].
Qed.

(** C7 as stated fails: a header with segments after the credential is
    not rejected.  The gate of part_000 takes [alice.jwt] from
    [Bearer alice.jwt and more], attaches alice's claims, and the request
    is served. *)
Lemma extra_segments_are_accepted :
  bearer_token "Bearer alice.jwt and more" = Some "alice.jwt" /\
  sent (dispatch (Entries.app Sample.env) alice_with_trailing_segments).2
    = Some (mkResponse 200 (VObj (obj [("entries", VArr [])]))) /\
  sent (dispatch (Entries.app Sample.env) alice_with_trailing_segments).2
    ≠ Some (error_response 401 "Invalid authorization, invalid authorization scheme") /\
  user (req (dispatch (Entries.app Sample.env) alice_with_trailing_segments).2)
    = VObj (obj [("userId", VNum 1); ("username", VStr "alice")]).
Proof.
  split_and!; try (vm_compute; reflexivity).
  vm_compute. discriminate.
Qed.

(** C7, amended.  The gate of index.cjs and part_000 splits a non-empty
    header at single spaces and reads its first two segments only.  It
    answers the scheme-mismatch 401 when the header is not [Bearer], a
    space and a non-empty credential, followed by nothing or by a space
    and anything; otherwise it verifies the credential, whatever follows
    it, and runs the rest of the chain with the claims in [req.user]. *)
Theorem gate_reads_two_segments {S} (E : Env S) (next : M S unit) (w : World S)
    (h : string) :
  sent w = None ->
  authorization (req w) = Some h ->
  h ≠ "" ->
  ((forall tok, ~ two_segments h tok) ->
   verifyJwt E next w
     = reject 401 "Invalid authorization, invalid authorization scheme" w) /\
  (forall tok, two_segments h tok ->
   verifyJwt E next w
     = try_catch (claims <- verify E (VStr tok) ;; set_user claims ;;; next)
         gate_catch w).
Proof.
  intros Hs Hh Hne. split.
  - intros Hno. apply (gate_bad_scheme E next w h Hs Hh Hne).
    destruct (bearer_token h) as [tok|] eqn:Hb; [|reflexivity].
    exfalso. apply (Hno tok), bearer_token_shape, Hb.
  - intros tok Htok. apply bearer_token_shape in Htok.
    unfold verifyJwt, try_catch, bind at 1, get_req. rewrite Hh.
    destruct (String.eqb_spec h ""); [contradiction|]. rewrite Htok.
    reflexivity.
Qed.

Lemma gate_reads_two_segments_witness :
  ((forall tok, ~ two_segments "Bearer alice.jwt and more" tok) ->
   verifyJwt Sample.env (ret tt) alice_with_trailing_segments
     = reject 401 "Invalid authorization, invalid authorization scheme"
         alice_with_trailing_segments) /\
  (forall tok, two_segments "Bearer alice.jwt and more" tok ->
   verifyJwt Sample.env (ret tt) alice_with_trailing_segments
     = try_catch (claims <- verify Sample.env (VStr tok) ;; set_user claims ;;; ret tt)
         gate_catch alice_with_trailing_segments).
Proof.
  apply (gate_reads_two_segments Sample.env (ret tt) alice_with_trailing_segments
           "Bearer alice.jwt and more").
  - reflexivity.
  - reflexivity.
  - discriminate.
Defined.

(** * The handlers, path by path *)

(** ** The lease, path by path *)

(** X2.  When the first statement of the session, [SET SESSION sql_mode],
    fails, the second is not sent and the rest of the chain is not run: the
    connection goes back to the pool and the error of the statement is
    rethrown. *)
Theorem lease_session_setup_fails {S} (E : Env S) (next : M S unit) (w : World S)
    (c : Conn) (rest : list Conn) (e : Thrown) (s' : S) :
  idle w = c :: rest ->
  db_exec E (store w) sql_mode [] = (inl e, s') ->
  lease E next w
    = (Thr e,
       mkWorld (with_db (req w) c) (statusCode w) (sent w) (c :: rest)
         (filter (fun x => x ≠ c) (c :: leased w)) s'
         (trace w ++ [EvAcquire c; EvQuery sql_mode []; EvRelease c])).
Proof.
  intros Hidle Hx.
  unfold lease, try_catch, bind at 1, pool_getConnection. rewrite Hidle.
  unfold bind at 1, set_db, bind at 1, get_req, set_req. cbn [req].
  unfold bind at 1.
  erewrite db_query_run; [|reflexivity|reflexivity].
  cbn [store]. rewrite Hx. cbn [fst snd].
  unfold bind, get_req, release, throw, with_db. simpl.
  rewrite <- !app_assoc. reflexivity.
Qed.

(** The lease when the session is set up: [next] runs with the
    connection in [req.db], then the release. *)
Lemma lease_runs_chain {S} (E : Env S) (next : M S unit) (w : World S)
    (c : Conn) (rest : list Conn) (v1 v2 : JsVal) (s1 s2 : S) :
  idle w = c :: rest ->
  db_exec E (store w) sql_mode [] = (inr v1, s1) ->
  db_exec E s1 sql_time_zone [] = (inr v2, s2) ->
  db (req (next (leased_world w c rest s2)).2) = Some c ->
  lease E next w
    = ((next (leased_world w c rest s2)).1,
       (release c (next (leased_world w c rest s2)).2).2).
Proof.
  intros Hidle H1 H2 Hdb.
  unfold lease, try_catch, bind at 1, pool_getConnection. rewrite Hidle.
  unfold bind at 1, set_db, bind at 1, get_req, set_req. cbn [req].
  unfold bind at 1.
  erewrite db_query_run; [|reflexivity|reflexivity].
  cbn [store]. rewrite H1. cbn [fst snd].
  unfold bind at 1.
  erewrite db_query_run; [|reflexivity|reflexivity].
  cbn [store]. rewrite H2. cbn [fst snd].
  unfold bind at 1.
  match goal with |- context [next ?w0] =>
    replace w0 with (leased_world w c rest s2)
      by (unfold leased_world, with_db; cbn; rewrite <- !app_assoc; reflexivity)
  end.
  destruct (next (leased_world w c rest s2)) as [[[]|e] w'] eqn:Hn; cbn [fst snd] in *.
  - unfold req_db_release, bind, get_req. rewrite Hdb. reflexivity.
  - unfold bind, get_req. rewrite Hdb. reflexivity.
Qed.

(** Every layer registered after the lease, in each of the three files,
    is tame: run from any world, and given a tame [next], it sends
    nothing to the pool and leaves [req.db] in place. *)
Lemma downstream_layers_tame {S} (P : Event -> Prop) (E : Env S) (rev : Revision) :
  (forall e, library_event e -> P e) ->
  (forall label, P (EvEnter label)) ->
  Forall (tame_layer P) (tail (server E rev)).
Proof.
  intros P_library P_enter. destruct rev; simpl;
    repeat (apply Forall_cons; split; [split; [apply P_enter|]|]);
    try apply Forall_nil; simpl;
    auto using tame_car_delete, tame_car_get, tame_car_post, tame_register,
      tame_login, tame_verifyJwt, tame_entry_post, tame_entry_put,
      tame_entry_get, tame_entry_delete, tame_user_get, tame_draft_register,
      tame_draft_login, tame_draft_verifyJwt.
Qed.

(** C1.  The lease middleware is the same text in the three files.  Its
    [next] stands for what the call [next()] does before it returns (in
    Express the synchronous part of the rest of the chain) and [later]
    for what the handlers of the request do once the lease has resumed;
    neither calls the pool, as no layer of the files does but the lease,
    which each registers first (last two clauses).  For every such
    [next] and [later], returning or throwing, a request for which
    [pool.getConnection()] yields [c] releases [c] exactly once: its
    events are the acquisition, events that do not touch the pool, one
    release, and again events that do not touch the pool; the free list
    and the set of leased connections are afterwards what they were.
    When the two [SET] statements succeed, [next] runs with [c] leased
    and in [req.db], and the release is the first thing the lease does
    when [next] has returned or thrown. *)
Theorem lease_released_exactly_once {S} (E : Env S) (rev : Revision)
    (next later : M S unit) (w : World S) (c : Conn) (rest : list Conn) :
  idle w = c :: rest ->
  c ∉ leased w ->
  tame quiet next ->
  tame quiet later ->
  (exists evs1 evs2,
     trace ((lease E next ;;; later) w).2
       = trace w ++ EvAcquire c :: evs1 ++ EvRelease c :: evs2 /\
     Forall quiet evs1 /\ Forall quiet evs2) /\
  releases (trace ((lease E next ;;; later) w).2) = (1 + releases (trace w))%nat /\
  idle ((lease E next ;;; later) w).2 = idle w /\
  leased ((lease E next ;;; later) w).2 = leased w /\
  (forall (v1 v2 : JsVal) (s1 s2 : S),
     db_exec E (store w) sql_mode [] = (inr v1, s1) ->
     db_exec E s1 sql_time_zone [] = (inr v2, s2) ->
     lease E next w
       = ((next (leased_world w c rest s2)).1,
          (release c (next (leased_world w c rest s2)).2).2)) /\
  server E rev = Use "lease" (lease E) :: tail (server E rev) /\
  Forall (tame_layer quiet) (tail (server E rev)).
Proof.
  intros Hidle Hfree Hnext Hlater.
  assert (Hrun : exists evs1 evs2,
            trace ((lease E next ;;; later) w).2
              = trace w ++ EvAcquire c :: evs1 ++ EvRelease c :: evs2 /\
            Forall quiet evs1 /\ Forall quiet evs2 /\
            idle ((lease E next ;;; later) w).2 = idle w /\
            leased ((lease E next ;;; later) w).2 = leased w).
  { destruct (lease_paths quiet quiet_library E next w c rest Hnext Hidle)
      as (evs & T & Q & I & L).
    rewrite (filter_others c (leased w) Hfree) in L.
    unfold bind. destruct (lease E next w) as [[[]|e] w1]; cbn [fst snd] in *.
    - destruct (Hlater w1) as (evs2 & T2 & Q2 & I2 & L2 & _).
      exists evs, evs2. rewrite T2, T, I2, I, L2, L.
      split_and!; auto.
      rewrite <- !app_assoc. cbn [app]. rewrite <- !app_assoc. reflexivity.
    - exists evs, []. split_and!; auto. }
  destruct Hrun as (evs1 & evs2 & T & Q1 & Q2 & I & L).
  split_and!; auto.
  - exists evs1, evs2. auto.
  - rewrite T, !releases_app. cbn [releases]. rewrite releases_app.
    cbn [releases]. rewrite (releases_quiet evs1 Q1), (releases_quiet evs2 Q2). lia.
  - intros v1 v2 s1 s2 H1 H2.
    apply (lease_runs_chain E next w c rest v1 v2 s1 s2 Hidle H1 H2).
    destruct (Hnext (leased_world w c rest s2)) as (_ & _ & _ & _ & _ & D & _).
    rewrite D. reflexivity.
  - destruct rev; reflexivity.
  - apply downstream_layers_tame; [apply quiet_library|apply quiet_enter].
Qed.

Lemma lease_released_exactly_once_witness :
  (exists evs1 evs2,
     trace ((lease Sample.env (dispatch (tail (Entries.app Sample.env))) ;;; ret tt)
              anonymous_entries_request).2
       = [] ++ EvAcquire 0%nat :: evs1 ++ EvRelease 0%nat :: evs2 /\
     Forall quiet evs1 /\ Forall quiet evs2) /\
  releases
    (trace ((lease Sample.env (dispatch (tail (Entries.app Sample.env))) ;;; ret tt)
              anonymous_entries_request).2) = 1%nat /\
  idle ((lease Sample.env (dispatch (tail (Entries.app Sample.env))) ;;; ret tt)
          anonymous_entries_request).2 = [0%nat] /\
  leased ((lease Sample.env (dispatch (tail (Entries.app Sample.env))) ;;; ret tt)
            anonymous_entries_request).2 = [] /\
  (forall (v1 v2 : JsVal) (s1 s2 : Sample.Db),
     Sample.mysql Sample.db0 sql_mode [] = (inr v1, s1) ->
     Sample.mysql s1 sql_time_zone [] = (inr v2, s2) ->
     lease Sample.env (dispatch (tail (Entries.app Sample.env)))
       anonymous_entries_request
       = ((dispatch (tail (Entries.app Sample.env))
             (leased_world anonymous_entries_request 0%nat [] s2)).1,
          (release 0%nat
             (dispatch (tail (Entries.app Sample.env))
                (leased_world anonymous_entries_request 0%nat [] s2)).2).2)) /\
  server Sample.env part_000
    = Use "lease" (lease Sample.env) :: tail (server Sample.env part_000) /\
  Forall (tame_layer quiet) (tail (server Sample.env part_000)).
Proof.
  apply (lease_released_exactly_once Sample.env part_000
           (dispatch (tail (Entries.app Sample.env))) (ret tt)
           anonymous_entries_request 0%nat []).
  - reflexivity.
  - apply not_elem_of_nil.
  - apply (tame_entries_downstream quiet quiet_library quiet_enter Sample.env).
  - apply tame_ret.
Defined.

Lemma lease_session_setup_fails_witness :
  lease offline_env (ret tt) anonymous_get_car
    = (Thr (JsError "Error" "Connection lost: The server closed the connection."),
       mkWorld (with_db (req anonymous_get_car) 0%nat) 200 None [0%nat] []
         Sample.db0 [EvAcquire 0%nat; EvQuery sql_mode []; EvRelease 0%nat]).
Proof.
  apply (lease_session_setup_fails offline_env (ret tt) anonymous_get_car 0%nat []
           (JsError "Error" "Connection lost: The server closed the connection.")
           Sample.db0); reflexivity.
Defined.

(** ** The entry routes of part_000 *)

Lemma bound_insert_entry (userId title content mood deletedFlag : JsVal) :
  bind_named Entries.sql_insert_entry
    (Some (obj [("userId", userId); ("title", title); ("content", content);
                ("mood", mood); ("deletedFlag", deletedFlag)]))
  = inr [userId; title; content; mood; deletedFlag].
Proof. reflexivity. Qed.

Lemma bound_select_username (userId : JsVal) :
  bind_named Entries.sql_select_username (Some (obj [("userId", userId)]))
  = inr [userId].
Proof. reflexivity. Qed.

(** X4.  [POST /entry_table] with a title, content or mood that is missing
    or falsy answers 400 'Missing fields' and sends no statement: trace and
    store are as before. *)
Theorem entry_post_missing_fields {S} (E : Env S) (w : World S)
    (b : gmap string JsVal) :
  body (req w) = VObj b ->
  nullish (user (req w)) = false ->
  sent w = None ->
  truthy (default VUndef (b !! "title")) = false \/
  truthy (default VUndef (b !! "content")) = false \/
  truthy (default VUndef (b !! "mood")) = false ->
  Entries.entry_post E w
    = (Ret tt,
       mkWorld (req w) 400 (Some (error_response 400 "Missing fields"))
         (idle w) (leased w) (store w) (trace w)).
Proof.
  intros Hb Hu Hs Hm. unfold Entries.entry_post. exec. rewrite Hb.
  unfold nullish in Hu. rewrite Hu. cbv iota beta. rewrite !prop_obj.
  assert (Hc : negb (truthy (default VUndef (b !! "title")))
               || negb (truthy (default VUndef (b !! "content")))
               || negb (truthy (default VUndef (b !! "mood"))) = true).
  { destruct Hm as [-> | [-> | ->]]; simpl; rewrite ?orb_true_r; reflexivity. }
  rewrite Hc. cbn. rewrite Hs. reflexivity.
Qed.

(** X5.  [POST /entry_table] with the three fields present sends one
    insert whose owner is the [userId] of the verified claims and whose
    deleted flag is 0, whatever else the body holds, and answers with the
    insert id, that owner and the three fields. *)
Theorem entry_post_inserts_for_claims {S} (E : Env S) (w : World S) (c : Conn)
    (b : gmap string JsVal) (ins : JsVal) (s' : S) :
  db (req w) = Some c ->
  body (req w) = VObj b ->
  nullish (user (req w)) = false ->
  sent w = None ->
  truthy (default VUndef (b !! "title")) = true ->
  truthy (default VUndef (b !! "content")) = true ->
  truthy (default VUndef (b !! "mood")) = true ->
  db_exec E (store w) Entries.sql_insert_entry
    [prop (user (req w)) "userId"; default VUndef (b !! "title");
     default VUndef (b !! "content"); default VUndef (b !! "mood"); VNum 0]
    = (inr ins, s') ->
  nullish ins = false ->
  Entries.entry_post E w
    = (Ret tt,
       answered
         (after_query w Entries.sql_insert_entry
            [prop (user (req w)) "userId"; default VUndef (b !! "title");
             default VUndef (b !! "content"); default VUndef (b !! "mood"); VNum 0]
            s')
         (VObj (obj [("id", prop ins "insertId");
                     ("userId", prop (user (req w)) "userId");
                     ("title", default VUndef (b !! "title"));
                     ("content", default VUndef (b !! "content"));
                     ("mood", default VUndef (b !! "mood"))]))).
Proof.
  intros Hdb Hb Hu Hs Ht Hc Hm Hx Hi. unfold Entries.entry_post. exec. rewrite Hb.
  unfold nullish in Hu, Hi. rewrite Hu. cbv iota beta. rewrite !prop_obj.
  rewrite Ht, Hc, Hm. cbn [negb orb]. cbv iota.
  rewrite (db_query_run E _ _ _ w c Hdb (bound_insert_entry _ _ _ _ _)).
  rewrite Hx. cbn [fst snd]. rewrite Hi. cbn [sent]. rewrite Hs. reflexivity.
Qed.

(** X6.  [GET /user_table] selects by the [userId] of the claims and
    answers from the rows returned: 404 'User not found' for no row, and
    otherwise the [Username] of the first row, later rows ignored. *)
Theorem user_get_answers_first_row {S} (E : Env S) (w : World S) (c : Conn) (rows : list JsVal) (s' : S) :
  db (req w) = Some c ->
  nullish (user (req w)) = false ->
  sent w = None ->
  db_exec E (store w) Entries.sql_select_username [prop (user (req w)) "userId"]
    = (inr (VArr rows), s') ->
  sent (Entries.user_get E w).2 = user_answer (statusCode w) rows.
Proof.
  intros Hdb Hu Hs Hx. unfold Entries.user_get. exec.
  unfold nullish in Hu. rewrite Hu. cbv iota beta.
  rewrite (db_query_run E _ _ _ w c Hdb (bound_select_username _)).
  rewrite Hx. cbn [fst snd]. unfold user_answer.
  destruct rows as [|row rows]; cbn.
  - rewrite Hs. reflexivity.
  - destruct row; cbn; rewrite Hs; reflexivity.
Qed.

(** X20.  [GET /entry_table] sends one select, bound to the [userId] of
    the verified claims, and answers with what the engine returned for
    it under the key [entries]; nothing of the body or the URL reaches
    the statement. *)
Theorem entry_get_answers_for_claims {S} (E : Env S) (w : World S) (c : Conn)
    (rows : JsVal) (s' : S) :
  db (req w) = Some c ->
  nullish (user (req w)) = false ->
  sent w = None ->
  db_exec E (store w) Entries.sql_select_entries [prop (user (req w)) "userId"]
    = (inr rows, s') ->
  Entries.entry_get E w
    = (Ret tt,
       answered
         (after_query w Entries.sql_select_entries [prop (user (req w)) "userId"] s')
         (VObj (obj [("entries", rows)]))).
Proof.
  intros Hdb Hu Hs Hx. unfold Entries.entry_get. exec.
  unfold nullish in Hu. rewrite Hu. cbv iota beta.
  rewrite (db_query_run E _ _ _ w c Hdb (bound_select_entries _)).
  rewrite Hx. cbn [fst snd sent]. rewrite Hs. reflexivity.
Qed.

(** ** Handlers that answer whatever happens *)

Lemma db_query_response {S} (E : Env S) sql values (w : World S) :
  sent (db_query E sql values w).2 = sent w /\
  statusCode (db_query E sql values w).2 = statusCode w.
Proof.
  unfold db_query, bind, get_req, emit, throw. cbn.
  destruct (db (req w)); [|split; reflexivity].
  destruct (bind_named sql values) as [e|vals]; [split; reflexivity|].
  cbn. destruct (db_exec E (store w) sql vals) as [[e|v] s']; split; reflexivity.
Qed.

(** Splits on the outcome of the statement the goal is waiting for. *)
Ltac on_query E Hs :=
  match goal with
  | |- context [db_query E ?sql ?vals ?w0] =>
      let Hq := fresh "Hq" in
      let Hr := fresh "Hr" in
      let Hc := fresh "Hc" in
      destruct (db_query_response E sql vals w0) as [Hr Hc];
      destruct (db_query E sql vals w0) as [[?|?] ?] eqn:Hq;
      cbn [fst snd] in Hr, Hc; cbn [sent statusCode] in Hr, Hc;
      rewrite ?Hs in Hr
  end.


(** X8.  [DELETE /entry_table/:id] answers [{success: true}] whatever the
    engine reports for the update, also when no row has that id; and
    [PUT /entry_table] answers 200 'Entry updated successfully' in the
    same way. *)
Theorem entry_update_reports_success {S} (E : Env S) (w : World S) (c : Conn)
    (b : gmap string JsVal) (v1 v2 : JsVal) (s1 s2 : S) :
  db (req w) = Some c ->
  body (req w) = VObj b ->
  sent w = None ->
  db_exec E (store w) Entries.sql_update_entry
    [default VUndef (b !! "title"); default VUndef (b !! "content");
     default VUndef (b !! "mood"); default VUndef (b !! "id")] = (inr v1, s1) ->
  db_exec E (store w) Entries.sql_soft_delete
    [default VUndef (params (req w) !! "id")] = (inr v2, s2) ->
  sent (Entries.entry_put E w).2
    = Some (mkResponse 200 (VObj (obj [("message", VStr "Entry updated successfully")]))) /\
  sent (Entries.entry_delete E w).2
    = Some (mkResponse (statusCode w) (VObj (obj [("success", VBool true)]))).
Proof.
  intros Hdb Hb Hs H1 H2. split.
  - unfold Entries.entry_put. exec. rewrite Hb. cbv beta iota. rewrite !prop_obj.
    rewrite (db_query_run E _ _ _ w c Hdb (bound_update_entry _ _ _ _)).
    rewrite H1. cbn. rewrite Hs. reflexivity.
  - unfold Entries.entry_delete. exec.
    rewrite (db_query_run E _ _ _ w c Hdb (bound_soft_delete _)).
    rewrite H2. cbn. rewrite Hs. reflexivity.
Qed.

(** Closes a goal about a handler that has reached its [res.json]. *)
Ltac answer_with H :=
  cbn; rewrite ?H; cbn;
  unfold registration_failed, registered;
  repeat match goal with Hc : statusCode _ = statusCode _ |- _ => rewrite Hc; clear Hc end;
  eauto 8.

(** X9.  [/register] never throws and always answers, when nothing was
    sent before, and always with the status the response had (200): either
    the token, or, for any error in its [try] (no body, hashing, the
    insert, signing), the text 'An error occurred during registration'. *)
Theorem register_always_answers {S} (E : Env S) (rev : Revision) (w : World S) :
  sent w = None ->
  (register_of E rev w).1 = Ret tt /\
  exists v,
    sent (register_of E rev w).2 = Some (mkResponse (statusCode w) v) /\
    (v = registration_failed \/ exists t, v = registered rev t).
Proof.
  intros Hs.
  destruct rev; unfold register_of, register, Draft.register; exec;
    (destruct (body (req w)); cbv beta iota; try solve [answer_with Hs]);
    (match goal with |- context [bcrypt_hash E ?d ?r] =>
       destruct (bcrypt_hash E d r) as [e|hashed] end;
     cbv beta iota; try solve [answer_with Hs]);
    (on_query E Hs; cbv beta iota; try solve [answer_with Hr]);
    (match goal with |- context [match ?x with VUndef => _ | _ => _ end] =>
       destruct x end; cbv beta iota; try solve [answer_with Hr]);
    (match goal with |- context [jwt_sign E ?p] =>
       destruct (jwt_sign E p) as [e|t] end; answer_with Hr).
Qed.

(** Closes a goal about a handler that has run up to its answer, using
    what is known about [sent] in the worlds on the way. *)
Ltac settle :=
  cbn;
  repeat match goal with
         | H : sent ?x = None |- context [sent ?x] => rewrite H; cbn
         end;
  repeat match goal with
         | Hc : statusCode _ = statusCode _ |- _ => rewrite Hc; clear Hc
         end;
  unfold not_found, wrong_password, login_failed, logged_in;
  eauto 8.

(** Runs a handler to each of its ends. *)
Ltac run_to_end E Hs :=
  repeat (cbv beta iota; cbn [truthy negb]; first
    [ solve [settle]
    | on_query E Hs
    | match goal with |- context [bcrypt_compare E ?a ?b] =>
        destruct (bcrypt_compare E a b) as [?|[|]] end
    | match goal with |- context [jwt_sign E ?p] =>
        destruct (jwt_sign E p) end
    | match goal with |- context [truthy ?x] =>
        is_var x; destruct (truthy x) eqn:? end
    | match goal with |- context [match ?x with _ => _ end] =>
        is_var x; destruct x end ]).

(** X10.  [/login] of index.cjs and part_000 never throws and always
    answers, when nothing was sent before, with one of four responses:
    404 'Username not found', 401 'Password is incorrect', the token, or,
    for any error in its [try], 500 'Internal server error'. *)
Theorem login_always_answers {S} (E : Env S) (w : World S) :
  sent w = None ->
  (login E w).1 = Ret tt /\
  (sent (login E w).2 = Some not_found \/
   sent (login E w).2 = Some wrong_password \/
   sent (login E w).2 = Some login_failed \/
   exists t, sent (login E w).2 = Some (logged_in (statusCode w) t)).
Proof.
  intros Hs. unfold login. exec.
  destruct (body (req w)); run_to_end E Hs.
Qed.

(** Reads the new events off an equation between traces and looks for a
    signing among them. *)
Ltac no_other_sign :=
  let Ht := fresh "Ht" in
  let Hin := fresh "Hin" in
  cbn; intros Ht Hin;
  rewrite <- ?app_assoc in Ht;
  first [ apply app_inv_head in Ht
        | rewrite <- (app_nil_r (trace _)) in Ht at 1; apply app_inv_head in Ht ];
  subst;
  repeat (apply elem_of_cons in Hin as [Hin|Hin]; [try discriminate Hin|]);
  try (apply elem_of_nil in Hin; destruct Hin).

(** X11.  [/login] signs a token on one path only.  If the handler
    signs [claims], then it sent the select for the body's [username]
    and nothing else before, the engine returned rows, [bcrypt.compare]
    answered true for the body's [password] against the [Password] of
    the first of those rows, and [claims] are that row's [UserID] and
    [Username]. *)
Theorem login_signs_only_after_match {S} (E : Env S) (w : World S)
    (b : gmap string JsVal) (claims : JsVal) (evs : list Event) :
  body (req w) = VObj b ->
  trace (login E w).2 = trace w ++ evs ->
  EvSign claims ∈ evs ->
  exists rows row s',
    db_exec E (store w) sql_select_user [default VUndef (b !! "username")]
      = (inr rows, s') /\
    first_of rows w = (Ret row, w) /\
    bcrypt_compare E (default VUndef (b !! "password"))
      (VStr (to_js_string (prop row "Password"))) = inr true /\
    claims = login_claims row /\
    evs = [EvQuery sql_select_user [default VUndef (b !! "username")];
           EvSign claims].
Proof.
  intros Hb. unfold login. exec. rewrite Hb. cbv beta iota. rewrite !prop_obj.
  destruct (db (req w)) as [c|] eqn:Hdb.
  2: { destruct (db_query_unleased E sql_select_user
                   (Some (obj [("username", default VUndef (b !! "username"))])) w Hdb)
         as (e & ->).
       destruct (sent w); no_other_sign. }
  rewrite (db_query_run E _ _ _ w c Hdb (bound_select_user _)).
  destruct (db_exec E (store w) sql_select_user [default VUndef (b !! "username")])
    as [[e|rows] s']; cbn [fst snd].
  { destruct (sent w); no_other_sign. }
  destruct rows as [| | | |[|a s]|[|row rows]|]; cbn [negb truthy];
    try solve [destruct (sent w); no_other_sign].
  - destruct (bcrypt_compare E (default VUndef (b !! "password"))
                (VStr (to_js_string (prop (VStr (String a "")) "Password"))))
      as [e|[|]] eqn:Hcmp; cbv beta iota;
      try solve [destruct (sent w); no_other_sign].
    destruct (jwt_sign E _); destruct (sent w); no_other_sign;
      injection Hin as ->;
      exists (VStr (String a s)), (VStr (String a "")), s';
      (split_and!; [reflexivity|reflexivity|exact Hcmp|reflexivity|reflexivity]).
  - destruct (truthy row) eqn:Htr; cbn [negb]; cbv beta iota;
      try solve [destruct (sent w); no_other_sign].
    assert (Hn : match row with VUndef | VNull => true | _ => false end = false)
      by (destruct row; cbn in Htr; congruence).
    rewrite Hn. cbv beta iota.
    destruct (bcrypt_compare E (default VUndef (b !! "password"))
                (VStr (to_js_string (prop row "Password"))))
      as [e|[|]] eqn:Hcmp; cbv beta iota;
      try solve [destruct (sent w); no_other_sign].
    destruct (jwt_sign E _); destruct (sent w); no_other_sign;
      injection Hin as ->;
      exists (VArr (row :: rows)), row, s';
      (split_and!; [reflexivity|reflexivity|exact Hcmp|reflexivity|reflexivity]).
Qed.

(** ** The gate of part_001, header by header *)

(** X13.  In part_001 a header whose scheme is not [Bearer] is answered
    with the text 'Invalid authorization, invalid authorization scheme'
    (with the status the response had, 200) but the gate goes on: when
    [jwt.verify] accepts the second segment, its claims become [req.user]
    and the rest of the chain runs. *)
Theorem draft_gate_wrong_scheme_goes_on {S} (E : Env S) (next : M S unit)
    (w : World S) (h scheme tok : string) (more : list string) (claims : JsVal) :
  authorization (req w) = Some h ->
  split_on space h = scheme :: tok :: more ->
  scheme ≠ "Bearer" ->
  sent w = None ->
  jwt_verify E (VStr tok) = inr claims ->
  Draft.verifyJwt E next w
    = next (mkWorld (with_user (req w) claims) (statusCode w)
              (Some (mkResponse (statusCode w)
                       (VStr "Invalid authorization, invalid authorization scheme")))
              (idle w) (leased w) (store w) (trace w ++ [EvVerify (VStr tok)])).
Proof.
  intros Hh Hsplit Hsch Hs Hv.
  assert (Hne : truthy (VStr h) = true).
  { destruct h; [discriminate Hsplit|reflexivity]. }
  assert (Hb : String.eqb scheme "Bearer" = false).
  { destruct (String.eqb_spec scheme "Bearer"); [contradiction|reflexivity]. }
  unfold Draft.verifyJwt. exec. rewrite Hh. cbn [from_option]. rewrite Hne.
  cbn [negb]. rewrite Hsplit.
  cbn [lookup list_lookup from_option is_str]. rewrite Hb. cbn [negb].
  rewrite Hs, Hv. reflexivity.
Qed.

(** X14.  In part_001 a request without an [Authorization] header is
    answered with the text 'Invalid authorization, no authorization
    headers' and the status the response had (200); the gate then throws
    the TypeError of reading [split] of [undefined], and the rest of the
    chain is not run. *)
Theorem draft_gate_without_header {S} (E : Env S) (next : M S unit) (w : World S) :
  authorization (req w) = None ->
  sent w = None ->
  Draft.verifyJwt E next w
    = (Thr (TypeError "Cannot read properties of undefined (reading 'split')"),
       answered w (VStr "Invalid authorization, no authorization headers")).
Proof.
  intros Hh Hs. unfold Draft.verifyJwt. exec. rewrite Hh.
  cbn [from_option truthy negb]. rewrite Hs. reflexivity.
Qed.

(** ** The car routes (index.cjs, part_001) *)

(** X16.  When the insert of [POST /car] succeeds, the response echoes
    the [make_id] of the body beside the insert id, although the
    statement bound [undefined] in its place: the answer shows a value
    the row does not hold. *)
Theorem car_post_echoes_unbound_make_id {S} (E : Env S) (w : World S) (c : Conn)
    (b : gmap string JsVal) (ins : JsVal) (s' : S) :
  db (req w) = Some c ->
  body (req w) = VObj b ->
  sent w = None ->
  db_exec E (store w) sql_insert_car
    [VUndef; default VUndef (b !! "model"); default VUndef (b !! "user_id");
     default VUndef (b !! "deleted_flag")] = (inr ins, s') ->
  nullish ins = false ->
  car_post E w
    = (Ret tt,
       answered
         (after_query w sql_insert_car
            [VUndef; default VUndef (b !! "model"); default VUndef (b !! "user_id");
             default VUndef (b !! "deleted_flag")] s')
         (VObj (obj [("id", prop ins "insertId");
                     ("make_id", default VUndef (b !! "make_id"));
                     ("model", default VUndef (b !! "model"));
                     ("user_id", default VUndef (b !! "user_id"));
                     ("deleted_flag", default VUndef (b !! "deleted_flag"))]))).
Proof.
  intros Hdb Hb Hs Hx Hi. unfold car_post. exec. rewrite Hb. cbv iota beta.
  rewrite !prop_obj.
  rewrite (db_query_run E _ _ _ w c Hdb (bound_insert_car _ _ _ _)).
  rewrite Hx. cbn [fst snd]. unfold nullish in Hi. rewrite Hi. cbn [sent].
  rewrite Hs. reflexivity.
Qed.


(** X21.  [DELETE /car/:id] deletes nothing.  In index.cjs and part_001,
    when the session is set up, the request is answered [{success: true}]
    and the connection released without any statement but the two [SET]s
    of the lease having been sent: the store is as those left it. *)
Theorem car_delete_sends_no_statement {S} (E : Env S) (rev : Revision) (w : World S)
    (id : string) (c : Conn) (rest : list Conn) (v1 v2 : JsVal) (s1 s2 : S) :
  rev ≠ part_000 ->
  method (req w) = DELETE ->
  path (req w) = ["car"; id] ->
  id ≠ "" ->
  sent w = None ->
  idle w = c :: rest ->
  db_exec E (store w) sql_mode [] = (inr v1, s1) ->
  db_exec E s1 sql_time_zone [] = (inr v2, s2) ->
  (dispatch (server E rev) w).1 = Ret tt /\
  sent (dispatch (server E rev) w).2
    = Some (mkResponse (statusCode w) (VObj (obj [("success", VBool true)]))) /\
  store (dispatch (server E rev) w).2 = s2 /\
  trace (dispatch (server E rev) w).2
    = trace w ++ [EvEnter "lease"; EvAcquire c; EvQuery sql_mode [];
                  EvQuery sql_time_zone []; EvEnter "DELETE /car/:id"; EvRelease c].
Proof.
  intros Hrev Hm Hp Hid Hs Hidle H1 H2.
  assert (Hrun : forall tl,
    let out :=
      dispatch (Use "lease" (lease E)
                :: Route "DELETE /car/:id" DELETE [Lit "car"; Par "id"] car_delete
                :: tl) w in
    out.1 = Ret tt /\
    sent out.2
      = Some (mkResponse (statusCode w) (VObj (obj [("success", VBool true)]))) /\
    store out.2 = s2 /\
    trace out.2
      = trace w ++ [EvEnter "lease"; EvAcquire c; EvQuery sql_mode [];
                    EvQuery sql_time_zone []; EvEnter "DELETE /car/:id"; EvRelease c]).
  { intros tl. cbv zeta.
    set (w1 := mkWorld (req w) (statusCode w) (sent w) (idle w) (leased w)
                 (store w) (trace w ++ [EvEnter "lease"])).
    assert (Hnext : exists w',
              dispatch
                (Route "DELETE /car/:id" DELETE [Lit "car"; Par "id"] car_delete
                 :: tl)
                (leased_world w1 c rest s2) = (Ret tt, w') /\
              sent w'
                = Some (mkResponse (statusCode w) (VObj (obj [("success", VBool true)]))) /\
              store w' = s2 /\
              trace w'
                = trace w ++ [EvEnter "lease"; EvAcquire c; EvQuery sql_mode [];
                              EvQuery sql_time_zone []; EvEnter "DELETE /car/:id"] /\
              db (req w') = Some c).
    { unfold leased_world, with_db, w1. cbn [dispatch req].
      exec. unfold route_matches. cbn [method path]. rewrite Hm, Hp.
      cbn. apply String.eqb_neq in Hid. rewrite Hid. cbn. rewrite Hs.
      eexists. split_and!; try reflexivity.
      cbn [trace]. rewrite <- !app_assoc. reflexivity. }
    destruct Hnext as (w' & Hn & Hs' & Hst & Htr & Hdb).
    match goal with |- context [dispatch ?ls w] =>
      assert (Heq : dispatch ls w = (Ret tt, (release c w').2))
    end.
    { change (dispatch (Use "lease" (lease E) :: ?l) w)
        with ((emit (EvEnter "lease") ;;; lease E (dispatch l)) w).
      unfold bind at 1, emit at 1. cbv beta iota. fold w1.
      rewrite (lease_runs_chain E _ w1 c rest v1 v2 s1 s2 Hidle H1 H2);
        rewrite Hn; [reflexivity|exact Hdb]. }
    rewrite Heq. unfold release. cbn. rewrite Hs', Hst, Htr.
    split_and!; try reflexivity. rewrite <- !app_assoc. reflexivity. }
  destruct rev; [|contradiction|]; unfold server, Index.app, Draft.app;
    apply Hrun.
Qed.

Lemma car_delete_sends_no_statement_witness :
  (dispatch (server Sample.env index_cjs)
     (Sample.world0 (incoming DELETE ["car"; "3"] None (VObj ∅)))).1 = Ret tt /\
  sent (dispatch (server Sample.env index_cjs)
          (Sample.world0 (incoming DELETE ["car"; "3"] None (VObj ∅)))).2
    = Some (mkResponse 200 (VObj (obj [("success", VBool true)]))) /\
  store (dispatch (server Sample.env index_cjs)
           (Sample.world0 (incoming DELETE ["car"; "3"] None (VObj ∅)))).2
    = Sample.db0 /\
  trace (dispatch (server Sample.env index_cjs)
           (Sample.world0 (incoming DELETE ["car"; "3"] None (VObj ∅)))).2
    = [] ++ [EvEnter "lease"; EvAcquire 0%nat; EvQuery sql_mode [];
             EvQuery sql_time_zone []; EvEnter "DELETE /car/:id"; EvRelease 0%nat].
Proof.
  apply (car_delete_sends_no_statement Sample.env index_cjs
           (Sample.world0 (incoming DELETE ["car"; "3"] None (VObj ∅)))
           "3" 0%nat [] (Sample.header 0 0) (Sample.header 0 0)
           Sample.db0 Sample.db0);
    [discriminate | reflexivity | reflexivity | discriminate | reflexivity ..].
Defined.

(** ** The earlier [/log-in] (part_001) *)

Lemma bound_draft_select_user (username : JsVal) :
  bind_named Draft.sql_select_user (Some (obj [("username", username)]))
  = inr [username].
Proof. reflexivity. Qed.

(** X18.  The [catch] of part_001's [/log-in] only logs.  When the select
    fails, the handler returns normally and the request is left without
    an answer: the one effect is the statement sent. *)
Theorem draft_login_swallows_failure {S} (E : Env S) (w : World S) (c : Conn)
    (b : gmap string JsVal) (e : Thrown) (s' : S) :
  db (req w) = Some c ->
  body (req w) = VObj b ->
  db_exec E (store w) Draft.sql_select_user [default VUndef (b !! "username")]
    = (inl e, s') ->
  Draft.login E w
    = (Ret tt,
       after_query w Draft.sql_select_user [default VUndef (b !! "username")] s').
Proof.
  intros Hdb Hb Hx. unfold Draft.login. exec. rewrite Hb. cbv iota beta.
  rewrite !prop_obj.
  rewrite (db_query_run E _ _ _ w c Hdb (bound_draft_select_user _)).
  rewrite Hx. reflexivity.
Qed.


(** ** The properties at sample requests *)

Lemma entry_post_missing_fields_witness :
  Entries.entry_post Sample.env entry_without_content
    = (Ret tt,
       mkWorld (req entry_without_content) 400
         (Some (error_response 400 "Missing fields"))
         [] [0%nat] Sample.db0 []).
Proof.
  apply (entry_post_missing_fields Sample.env entry_without_content
           (obj [("title", VStr "monday")]));
    [reflexivity | reflexivity | reflexivity | right; left; reflexivity].
Defined.

Lemma entry_post_inserts_for_claims_witness :
  Entries.entry_post Sample.env entry_naming_bob
    = (Ret tt,
       answered
         (after_query entry_naming_bob Entries.sql_insert_entry
            [VNum 1; VStr "monday"; VStr "rain"; VStr "calm"; VNum 0]
            (Sample.mkDb (Sample.users Sample.db0)
               (Sample.entries Sample.db0
                  ++ [Sample.mkEntry 8 1 (VStr "monday") (VStr "rain") (VStr "calm") 0])
               []))
         (VObj (obj [("id", VNum 8); ("userId", VNum 1); ("title", VStr "monday");
                     ("content", VStr "rain"); ("mood", VStr "calm")]))).
Proof.
  apply (entry_post_inserts_for_claims Sample.env entry_naming_bob 0%nat
           (obj [("title", VStr "monday"); ("content", VStr "rain");
                 ("mood", VStr "calm"); ("userId", VNum 2)])
           (Sample.header 8 1));
    reflexivity.
Defined.

Lemma user_get_answers_first_row_witness :
  sent (Entries.user_get Sample.env (alice_at GET ["user_table"] (VObj ∅) ∅)).2
    = user_answer 200 [VObj (obj [("Username", VStr "alice")])].
Proof.
  apply (user_get_answers_first_row Sample.env (alice_at GET ["user_table"] (VObj ∅) ∅)
           0%nat [VObj (obj [("Username", VStr "alice")])] Sample.db0);
    reflexivity.
Defined.

Lemma entry_get_answers_for_claims_witness :
  Entries.entry_get Sample.env (alice_at GET ["entry_table"] (VObj ∅) ∅)
    = (Ret tt,
       answered
         (after_query (alice_at GET ["entry_table"] (VObj ∅) ∅)
            Entries.sql_select_entries [VNum 1] Sample.db0)
         (VObj (obj [("entries", VArr [])]))).
Proof.
  apply (entry_get_answers_for_claims Sample.env
           (alice_at GET ["entry_table"] (VObj ∅) ∅) 0%nat (VArr []) Sample.db0);
    reflexivity.
Defined.


Lemma entry_update_reports_success_witness :
  sent (Entries.entry_put Sample.env alice_touches_entry_99).2
    = Some (mkResponse 200 (VObj (obj [("message", VStr "Entry updated successfully")]))) /\
  sent (Entries.entry_delete Sample.env alice_touches_entry_99).2
    = Some (mkResponse 200 (VObj (obj [("success", VBool true)]))).
Proof.
  apply (entry_update_reports_success Sample.env alice_touches_entry_99 0%nat
           (obj [("id", VNum 99); ("title", VStr "t"); ("content", VStr "c");
                 ("mood", VStr "m")])
           (Sample.header 0 0) (Sample.header 0 0) Sample.db0 Sample.db0);
    reflexivity.
Defined.

Lemma register_always_answers_witness :
  (register_of Sample.env index_cjs carol_registers).1 = Ret tt /\
  exists v,
    sent (register_of Sample.env index_cjs carol_registers).2
      = Some (mkResponse 200 v) /\
    (v = registration_failed \/ exists t, v = registered index_cjs t).
Proof.
  apply (register_always_answers Sample.env index_cjs carol_registers). reflexivity.
Defined.

Lemma login_always_answers_witness :
  (login Sample.env (leased_login "login" "alice" "wonderland")).1 = Ret tt /\
  (sent (login Sample.env (leased_login "login" "alice" "wonderland")).2
     = Some not_found \/
   sent (login Sample.env (leased_login "login" "alice" "wonderland")).2
     = Some wrong_password \/
   sent (login Sample.env (leased_login "login" "alice" "wonderland")).2
     = Some login_failed \/
   exists t, sent (login Sample.env (leased_login "login" "alice" "wonderland")).2
               = Some (logged_in 200 t)).
Proof.
  apply (login_always_answers Sample.env (leased_login "login" "alice" "wonderland")).
  reflexivity.
Defined.

Lemma login_signs_only_after_match_witness :
  exists rows row s',
    Sample.mysql Sample.db0 sql_select_user [VStr "alice"] = (inr rows, s') /\
    first_of rows (leased_login "login" "alice" "wonderland")
      = (Ret row, leased_login "login" "alice" "wonderland") /\
    Sample.toy_compare (VStr "wonderland")
      (VStr (to_js_string (prop row "Password"))) = inr true /\
    alice_claims = login_claims row /\
    [EvQuery sql_select_user [VStr "alice"]; EvSign alice_claims]
      = [EvQuery sql_select_user [VStr "alice"]; EvSign alice_claims].
Proof.
  apply (login_signs_only_after_match Sample.env
           (leased_login "login" "alice" "wonderland")
           (obj [("username", VStr "alice"); ("password", VStr "wonderland")])
           alice_claims
           [EvQuery sql_select_user [VStr "alice"]; EvSign alice_claims]).
  - reflexivity.
  - reflexivity.
  - apply elem_of_cons; right. apply elem_of_cons; left. reflexivity.
Defined.

Lemma draft_gate_wrong_scheme_goes_on_witness :
  Draft.verifyJwt Sample.env (ret tt) basic_scheme_request
    = ret tt
        (mkWorld (with_user (req basic_scheme_request) alice_claims) 200
           (Some (mkResponse 200
                    (VStr "Invalid authorization, invalid authorization scheme")))
           [0%nat] [] Sample.db0 [EvVerify (VStr "alice.jwt")]).
Proof.
  apply (draft_gate_wrong_scheme_goes_on Sample.env (ret tt) basic_scheme_request
           "Basic alice.jwt" "Basic" "alice.jwt" [] alice_claims);
    [reflexivity | reflexivity | discriminate | reflexivity | reflexivity].
Defined.

Lemma draft_gate_without_header_witness :
  Draft.verifyJwt Sample.env (ret tt) anonymous_entries_request
    = (Thr (TypeError "Cannot read properties of undefined (reading 'split')"),
       answered anonymous_entries_request
         (VStr "Invalid authorization, no authorization headers")).
Proof.
  apply (draft_gate_without_header Sample.env (ret tt) anonymous_entries_request);
    reflexivity.
Defined.

Lemma car_post_echoes_unbound_make_id_witness :
  car_post Sample.env car_request
    = (Ret tt,
       answered
         (after_query car_request sql_insert_car
            [VUndef; VStr "Civic"; VUndef; VUndef]
            (Sample.mkDb (Sample.users Sample.db0) (Sample.entries Sample.db0)
               [Sample.mkCar VNull (VStr "Civic") VNull VNull]))
         (VObj (obj [("id", VNum 1); ("make_id", VNum 5); ("model", VStr "Civic");
                     ("user_id", VUndef); ("deleted_flag", VUndef)]))).
Proof.
  apply (car_post_echoes_unbound_make_id Sample.env car_request 0%nat
           (obj [("make_id", VNum 5); ("model", VStr "Civic")])
           (Sample.header 1 1));
    reflexivity.
Defined.


Lemma draft_login_swallows_failure_witness :
  Draft.login offline_env (leased_login "log-in" "alice" "wonderland")
    = (Ret tt,
       after_query (leased_login "log-in" "alice" "wonderland")
         Draft.sql_select_user [VStr "alice"] Sample.db0).
Proof.
  apply (draft_login_swallows_failure offline_env
           (leased_login "log-in" "alice" "wonderland") 0%nat
           (obj [("username", VStr "alice"); ("password", VStr "wonderland")])
           (JsError "Error" "Connection lost: The server closed the connection."));
    reflexivity.
Defined.

